(** * bc_node_srvr.py: a proof-of-work ledger node

    A shallow embedding of the blockchain core of [bc_node_srvr.py]
    ([Block], [Blockchain], [create_chain_from_dump], [consensus]) and the
    properties of it that the specification states.

    Conventions of the embedding.
    - A Python [str] is a [string] whose characters are the code points
      0..255; an [int] is a [Z]; a [float] is carried by its [repr], which is
      what [json.dumps] writes for it. Arithmetic on floats is not embedded:
      the two operations the program can come to apply to a float are the
      fields of [Floats], a parameter of the functions that use them.
    - What arrives as JSON (request bodies, answers of peers) is a [json]
      value of any shape, and a [Block] holds whatever values it was built
      from; nothing is assumed of their types.
    - A call that may raise returns a [PyResult]; a method that mutates
      [self] returns the new [self] next to its value.
    - [hashlib.sha256] is the function of FIPS 180-4, written out in
      [Module SHA256] so that digests can be evaluated. *)

From Stdlib Require Import ZArith List String Ascii Bool Lia.
From Stdlib Require Import DecimalString Permutation.
Import ListNotations.

Local Open Scope string_scope.
Local Open Scope list_scope.
Local Open Scope Z_scope.

Local Notation "a +++ b" := (String.append a b) (at level 60, right associativity).

(** ** Outcomes of Python calls *)

Inductive PyExn : Type :=
  | AttributeError (owner attr : string)
  | IndexError
  | KeyError (key : string)
  | TypeError
  | Exception (msg : string).

Inductive PyResult (A : Type) : Type :=
  | Return (a : A)
  | Raise (e : PyExn).

Arguments Return {A} a.
Arguments Raise {A} e.

Definition bind {A B : Type} (m : PyResult A) (k : A -> PyResult B) : PyResult B :=
  match m with
  | Return a => k a
  | Raise e => Raise e
  end.

Notation "x <- m ;; k" := (bind m (fun x => k))
  (at level 61, m at next level, right associativity).

Definition returns {A : Type} (m : PyResult A) : Prop := exists a, m = Return a.
Definition raises {A : Type} (m : PyResult A) : Prop := exists e, m = Raise e.

(** ** Strings *)

(** [s * n] on a [str]. *)
Definition str_mul (s : string) (n : Z) : string :=
  String.concat "" (repeat s (Z.to_nat n)).

(** [s.startswith(p)]. *)
Definition startswith (s p : string) : bool := String.prefix p s.

Definition code (c : ascii) : Z := Z.of_N (N_of_ascii c).
Definition chr (z : Z) : ascii := ascii_of_N (Z.to_N z).

Definition hex_digit (z : Z) : ascii :=
  if z <? 10 then chr (48 + z) else chr (87 + z).

(** Two lowercase hexadecimal digits of a byte. *)
Definition hex_byte (z : Z) : string :=
  String (hex_digit (Z.shiftr z 4)) (String (hex_digit (Z.land z 15)) "").

(** [str.encode()]: UTF-8, for the code points of the embedding. *)
Fixpoint encode (s : string) : list Z :=
  match s with
  | EmptyString => []
  | String c r =>
      let n := code c in
      if n <? 128 then n :: encode r
      else Z.lor 192 (Z.shiftr n 6) :: Z.lor 128 (Z.land n 63) :: encode r
  end.

(** ** SHA-256 (FIPS 180-4), on 32-bit words held in [Z] *)

Module SHA256.

Definition wrap (x : Z) : Z := Z.land x 4294967295.
Definition add32 (x y : Z) : Z := wrap (x + y).
Definition rotr (n x : Z) : Z :=
  Z.lor (Z.shiftr x n) (wrap (Z.shiftl x (32 - n))).
Definition not32 (x : Z) : Z := Z.lxor x 4294967295.

Definition ch (x y z : Z) : Z := Z.lxor (Z.land x y) (Z.land (not32 x) z).
Definition maj (x y z : Z) : Z :=
  Z.lxor (Z.lxor (Z.land x y) (Z.land x z)) (Z.land y z).
Definition bsig0 (x : Z) : Z := Z.lxor (Z.lxor (rotr 2 x) (rotr 13 x)) (rotr 22 x).
Definition bsig1 (x : Z) : Z := Z.lxor (Z.lxor (rotr 6 x) (rotr 11 x)) (rotr 25 x).
Definition ssig0 (x : Z) : Z := Z.lxor (Z.lxor (rotr 7 x) (rotr 18 x)) (Z.shiftr x 3).
Definition ssig1 (x : Z) : Z := Z.lxor (Z.lxor (rotr 17 x) (rotr 19 x)) (Z.shiftr x 10).

(** Round constants: the fractional parts of the cube roots of the first
    64 primes, 32 bits each. *)
Definition round_constants : list Z :=
  [ 1116352408; 1899447441; 3049323471; 3921009573; 961987163; 1508970993;
    2453635748; 2870763221; 3624381080; 310598401; 607225278; 1426881987;
    1925078388; 2162078206; 2614888103; 3248222580; 3835390401; 4022224774;
    264347078; 604807628; 770255983; 1249150122; 1555081692; 1996064986;
    2554220882; 2821834349; 2952996808; 3210313671; 3336571891; 3584528711;
    113926993; 338241895; 666307205; 773529912; 1294757372; 1396182291;
    1695183700; 1986661051; 2177026350; 2456956037; 2730485921; 2820302411;
    3259730800; 3345764771; 3516065817; 3600352804; 4094571909; 275423344;
    430227734; 506948616; 659060556; 883997877; 958139571; 1322822218;
    1537002063; 1747873779; 1955562222; 2024104815; 2227730452; 2361852424;
    2428436474; 2756734187; 3204031479; 3329325298 ].

(** Initial state: the fractional parts of the square roots of the first
    8 primes. *)
Definition initial_state : list Z :=
  [ 1779033703; 3144134277; 1013904242; 2773480762;
    1359893119; 2600822924; 528734635; 1541459225 ].

(** Padding: a 1 bit, zeros up to 56 mod 64 bytes, the bit length on 8
    bytes, big endian. *)
Definition be_bytes (width : nat) (x : Z) : list Z :=
  map (fun i => Z.land (Z.shiftr x (8 * Z.of_nat i)) 255) (rev (seq 0 width)).

Definition pad (msg : list Z) : list Z :=
  let len := Z.of_nat (List.length msg) in
  let zeros := Z.to_nat ((55 - len) mod 64) in
  msg ++ 128 :: repeat 0 zeros ++ be_bytes 8 (8 * len).

Fixpoint words (fuel : nat) (bytes : list Z) : list Z :=
  match fuel, bytes with
  | S f, a :: b :: c :: d :: rest =>
      (Z.shiftl a 24 + Z.shiftl b 16 + Z.shiftl c 8 + d) :: words f rest
  | _, _ => []
  end.

(** The message schedule, kept as the window of the last 16 words. *)
Definition next_word (window : list Z) : Z :=
  add32 (add32 (ssig1 (nth 14 window 0)) (nth 9 window 0))
        (add32 (ssig0 (nth 1 window 0)) (nth 0 window 0)).

Fixpoint schedule (n : nat) (window : list Z) : list Z :=
  match n with
  | O => []
  | S m =>
      let w := next_word window in
      w :: schedule m (tl window ++ [w])
  end.

Definition round (st : list Z) (kw : Z * Z) : list Z :=
  match st with
  | [a; b; c; d; e; f; g; h] =>
      let t1 := add32 (add32 (add32 h (bsig1 e)) (add32 (ch e f g) (fst kw))) (snd kw) in
      let t2 := add32 (bsig0 a) (maj a b c) in
      [add32 t1 t2; a; b; c; add32 d t1; e; f; g]
  | _ => st
  end.

Definition compress (st block : list Z) : list Z :=
  let w := block ++ schedule 48 block in
  let st' := fold_left round (combine round_constants w) st in
  map (fun p => add32 (fst p) (snd p)) (combine st st').

Fixpoint blocks (fuel : nat) (ws st : list Z) : list Z :=
  match fuel, ws with
  | S f, _ :: _ => blocks f (skipn 16 ws) (compress st (firstn 16 ws))
  | _, _ => st
  end.

Definition digest (msg : list Z) : list Z :=
  let p := pad msg in
  let ws := words (List.length p) p in
  flat_map (be_bytes 4) (blocks (List.length ws) ws initial_state).

Definition hexdigest (msg : list Z) : string :=
  String.concat "" (map hex_byte (digest msg)).

End SHA256.

(** [sha256(s.encode()).hexdigest()]. *)
Definition sha256_hex (s : string) : string := SHA256.hexdigest (encode s).

(** ** JSON values and [json.dumps(_, sort_keys=True)] *)

(** A [dict] is its list of items in insertion order (keys distinct). *)
Unset Elimination Schemes.
Inductive json : Type :=
  | JNull
  | JBool (b : bool)
  | JInt (z : Z)
  | JFloat (repr : string)
  | JStr (s : string)
  | JList (l : list json)
  | JDict (items : list (string * json)).
Set Elimination Schemes.

Definition str_of_int (z : Z) : string := NilZero.string_of_int (Z.to_int z).

(** One character of a string literal, as [ensure_ascii=True] writes it:
    printable ASCII stands for itself, everything else is escaped. *)
Definition escape_char (c : ascii) : string :=
  let n := code c in
  if n =? 34 then "\" +++ String c ""
  else if n =? 92 then "\\"
  else if n =? 8 then "\b"
  else if n =? 12 then "\f"
  else if n =? 10 then "\n"
  else if n =? 13 then "\r"
  else if n =? 9 then "\t"
  else if (32 <=? n) && (n <=? 126) then String c ""
  else "\u00" +++ hex_byte n.

Fixpoint escape (s : string) : string :=
  match s with
  | EmptyString => ""
  | String c r => escape_char c +++ escape r
  end.

Definition quote (s : string) : string :=
  String (chr 34) (escape s +++ String (chr 34) "").

(** [sorted(items)]: ascending keys, by code points. *)
Fixpoint insert_item {A : Type} (kv : string * A) (l : list (string * A)) : list (string * A) :=
  match l with
  | [] => [kv]
  | kv' :: r =>
      if String.leb (fst kv) (fst kv') then kv :: l else kv' :: insert_item kv r
  end.

Definition sort_items {A : Type} (l : list (string * A)) : list (string * A) :=
  fold_right insert_item [] l.

Definition join (sep : string) (l : list string) : string := String.concat sep l.

Fixpoint dumps (j : json) : string :=
  match j with
  | JNull => "null"
  | JBool b => if b then "true" else "false"
  | JInt z => str_of_int z
  | JFloat r => r
  | JStr s => quote s
  | JList l => "[" +++ join ", " (map dumps l) +++ "]"
  | JDict items =>
      let rendered := map (fun kv => (fst kv, dumps (snd kv))) items in
      "{" +++ join ", " (map (fun kv => quote (fst kv) +++ ": " +++ snd kv)
                            (sort_items rendered)) +++ "}"
  end.

(** ** Python operations on JSON values *)

(** [type(x).__name__]. *)
Definition type_name (j : json) : string :=
  match j with
  | JNull => "NoneType"
  | JBool _ => "bool"
  | JInt _ => "int"
  | JFloat _ => "float"
  | JStr _ => "str"
  | JList _ => "list"
  | JDict _ => "dict"
  end.

(** The truth value of a JSON value ([if x:]). A float is false when it is
    a zero, whose [repr] is [0.0] or [-0.0]. *)
Definition truthy (j : json) : bool :=
  match j with
  | JNull => false
  | JBool b => b
  | JInt z => negb (z =? 0)
  | JFloat r => negb (String.eqb r "0.0" || String.eqb r "-0.0")
  | JStr s => negb (String.eqb s "")
  | JList l => match l with [] => false | _ :: _ => true end
  | JDict items => match items with [] => false | _ :: _ => true end
  end.

(** [d.get(key)] on the items of a dict; a missing key gives [None]. *)
Fixpoint dict_get (items : list (string * json)) (key : string) : json :=
  match items with
  | [] => JNull
  | (k, v) :: rest => if String.eqb k key then v else dict_get rest key
  end.

(** [key in d]. *)
Definition dict_has (items : list (string * json)) (key : string) : bool :=
  existsb (fun kv => String.eqb (fst kv) key) items.

(** [d[key] = value]: a key that is present keeps its place. *)
Fixpoint dict_set (items : list (string * json)) (key : string) (value : json)
    : list (string * json) :=
  match items with
  | [] => [(key, value)]
  | (k, v) :: rest =>
      if String.eqb k key then (k, value) :: rest else (k, v) :: dict_set rest key value
  end.

(** [j[key]] for a string [key]: [KeyError] on a dict without the key,
    [TypeError] on everything that is not a dict. *)
Definition item (j : json) (key : string) : PyResult json :=
  match j with
  | JDict items =>
      if dict_has items key then Return (dict_get items key) else Raise (KeyError key)
  | _ => Raise TypeError
  end.

Fixpoint characters (s : string) : list json :=
  match s with
  | EmptyString => []
  | String c r => JStr (String c "") :: characters r
  end.

(** What a [for] loop over [j] yields: the elements of a list, the keys of
    a dict, the characters of a str; [TypeError] on the rest. *)
Definition py_iter (j : json) : PyResult (list json) :=
  match j with
  | JList l => Return l
  | JDict items => Return (map (fun kv => JStr (fst kv)) items)
  | JStr s => Return (characters s)
  | _ => Raise TypeError
  end.

(** [s == j] for a str [s]: only an equal str is equal to it. *)
Definition str_eq (s : string) (j : json) : bool :=
  match j with
  | JStr s' => String.eqb s s'
  | _ => false
  end.

(** The numbers among the JSON values; a bool counts as the int 0 or 1. *)
Inductive Number : Type :=
  | NInt (z : Z)
  | NFloat (repr : string).

Definition number_of (j : json) : option Number :=
  match j with
  | JInt z => Some (NInt z)
  | JBool b => Some (NInt (if b then 1 else 0))
  | JFloat r => Some (NFloat r)
  | _ => None
  end.

(** The float arithmetic of the interpreter, on reprs: [float_succ r] is
    the repr of [x + 1] for the float [x] of repr [r], and [float_gt a b] is
    [a > b] when one of the two is a float. *)
Record Floats : Type := mkFloats {
  float_succ : string -> string;
  float_gt : Number -> Number -> bool
}.

(** [j + 1]. *)
Definition add_one (py : Floats) (j : json) : PyResult json :=
  match number_of j with
  | Some (NInt z) => Return (JInt (z + 1))
  | Some (NFloat r) => Return (JFloat (float_succ py r))
  | None => Raise TypeError
  end.

(** [a > b] on numbers. *)
Definition num_gt (py : Floats) (a b : Number) : bool :=
  match a, b with
  | NInt x, NInt y => x >? y
  | _, _ => float_gt py a b
  end.

(** ** [class Block] *)

(** The attributes of a [Block] object. [__init__] binds the first five to
    whatever it is given; [hash] is bound later ([block.hash = ...]) and may
    be deleted again ([delattr]), so it is optional. The program binds
    [hash] to a str only: a digest, or a proof that [is_valid_proof] has
    accepted. *)
Record Block : Type := mkBlock {
  index : json;
  transactions : json;
  timestamp : json;
  previous_hash : json;
  nonce : json;
  hash : option string
}.

(** [Block(index, transactions, timestamp, previous_hash, nonce)]. *)
Definition Block_init (index transactions timestamp previous_hash nonce : json) : Block :=
  mkBlock index transactions timestamp previous_hash nonce None.

(** [block.hash = h]. *)
Definition set_hash (b : Block) (h : string) : Block :=
  mkBlock (index b) (transactions b) (timestamp b) (previous_hash b) (nonce b) (Some h).

(** [block.nonce = n] for an int [n]. *)
Definition set_nonce (b : Block) (n : Z) : Block :=
  mkBlock (index b) (transactions b) (timestamp b) (previous_hash b) (JInt n) (hash b).

(** The block with no [hash] attribute. *)
Definition without_hash (b : Block) : Block :=
  mkBlock (index b) (transactions b) (timestamp b) (previous_hash b) (nonce b) None.

(** [block.hash]. *)
Definition get_hash (b : Block) : PyResult string :=
  match hash b with
  | Some h => Return h
  | None => Raise (AttributeError "Block" "hash")
  end.

(** [delattr(block, "hash")]. *)
Definition delattr_hash (b : Block) : PyResult Block :=
  match hash b with
  | Some _ => Return (without_hash b)
  | None => Raise (AttributeError "Block" "hash")
  end.

(** [self.__dict__]: every attribute the object has at the moment. *)
Definition Block_dict (b : Block) : list (string * json) :=
  [ ("index", index b);
    ("transactions", transactions b);
    ("timestamp", timestamp b);
    ("previous_hash", previous_hash b);
    ("nonce", nonce b) ]
  ++ match hash b with
     | Some h => [("hash", JStr h)]
     | None => []
     end.

Definition block_string (b : Block) : string := dumps (JDict (Block_dict b)).

Definition compute_hash (b : Block) : string := sha256_hex (block_string b).

(** ** [class Blockchain] *)

Definition difficulty : Z := 2.

Record Blockchain : Type := mkBlockchain {
  unconfirmed_transactions : list json;
  chain : list Block
}.

(** [Blockchain()]. *)
Definition Blockchain_init : Blockchain := mkBlockchain [] [].

Definition genesis_block : Block :=
  let genesis_block := Block_init (JInt 0) (JList []) (JInt 0) (JStr "0") (JInt 0) in
  set_hash genesis_block (compute_hash genesis_block).

Definition create_genesis_block (self : Blockchain) : Blockchain :=
  mkBlockchain (unconfirmed_transactions self) (chain self ++ [genesis_block]).

(** [self.chain[-1]]. *)
Definition last_block (self : Blockchain) : PyResult Block :=
  match rev (chain self) with
  | b :: _ => Return b
  | [] => Raise IndexError
  end.

(** [is_valid_proof] on a str. *)
Definition is_valid_hash (block : Block) (block_hash : string) : bool :=
  startswith block_hash (str_mul "0" difficulty)
  && String.eqb block_hash (compute_hash block).

(** [is_valid_proof]: [block_hash.startswith] exists on a str only. *)
Definition is_valid_proof (block : Block) (block_hash : json) : PyResult bool :=
  match block_hash with
  | JStr s => Return (is_valid_hash block s)
  | _ => Raise (AttributeError (type_name block_hash) "startswith")
  end.

(** [block.hash = proof], for a proof that [is_valid_proof] has accepted,
    which is a str. *)
Definition bind_hash (block : Block) (proof : json) : Block :=
  match proof with
  | JStr h => set_hash block h
  | _ => block
  end.

(** [add_block] returns its boolean next to the ledger it leaves. *)
Definition add_block (self : Blockchain) (block : Block) (proof : json)
    : PyResult (bool * Blockchain) :=
  last <- last_block self ;;
  previous_hash' <- get_hash last ;;
  if negb (str_eq previous_hash' (previous_hash block))
  then Return (false, self)
  else
    valid <- is_valid_proof block proof ;;
    if negb valid
    then Return (false, self)
    else
      let block := bind_hash block proof in
      Return (true, mkBlockchain (unconfirmed_transactions self) (chain self ++ [block])).

(** The [while] loop of [proof_of_work]; [n] is the int that [block.nonce]
    holds, [fuel] bounds the number of increments, [None] is a search that
    has not ended within it. *)
Fixpoint proof_of_work_loop (fuel : nat) (block : Block) (n : Z) (computed_hash : string)
    : option (Block * string) :=
  if startswith computed_hash (str_mul "0" difficulty)
  then Some (block, computed_hash)
  else
    match fuel with
    | O => None
    | S fuel' =>
        let block := set_nonce block (n + 1) in
        proof_of_work_loop fuel' block (n + 1) (compute_hash block)
    end.

(** [proof_of_work] mutates [block]: the block is returned with the digest. *)
Definition proof_of_work (fuel : nat) (block : Block) : option (Block * string) :=
  let block := set_nonce block 0 in
  proof_of_work_loop fuel block 0 (compute_hash block).

Definition add_new_transaction (self : Blockchain) (transaction : json) : Blockchain :=
  mkBlockchain (unconfirmed_transactions self ++ [transaction]) (chain self).

(** [mine]; [now] is the value of [time.time()]. The value of [add_block]
    is dropped, the pool is rebound to a fresh empty list. *)
Definition mine (py : Floats) (fuel : nat) (now : json) (self : Blockchain)
    : option (PyResult (bool * Blockchain)) :=
  match unconfirmed_transactions self with
  | [] => Some (Return (false, self))
  | _ :: _ =>
      match last_block self with
      | Raise e => Some (Raise e)
      | Return last =>
          match add_one py (index last) with
          | Raise e => Some (Raise e)
          | Return next_index =>
              match get_hash last with
              | Raise e => Some (Raise e)
              | Return last_hash =>
                  let new_block :=
                    Block_init next_index (JList (unconfirmed_transactions self)) now
                               (JStr last_hash) (JInt 0) in
                  match proof_of_work fuel new_block with
                  | None => None
                  | Some (new_block, proof) =>
                      Some (r <- add_block self new_block (JStr proof) ;;
                            let self := snd r in
                            Return (true, mkBlockchain [] (chain self)))
                  end
              end
          end
      end
  end.

(** The module-level ledger: [Blockchain()] then [create_genesis_block()]. *)
Definition blockchain0 : Blockchain := create_genesis_block Blockchain_init.

(** A ledger the program can be in: the module-level one after any run of
    [add_new_transaction], [mine] and [add_block] on a block built by the
    constructor, as [verify_and_add_block] does. *)
Inductive reachable : Blockchain -> Prop :=
  | reach_init : reachable blockchain0
  | reach_new_transaction (self : Blockchain) (transaction : json) :
      reachable self -> reachable (add_new_transaction self transaction)
  | reach_mine (self self' : Blockchain) (py : Floats) (fuel : nat) (now : json) (r : bool) :
      reachable self -> mine py fuel now self = Some (Return (r, self')) -> reachable self'
  | reach_add_block (self self' : Blockchain) (i txs ts prev n proof : json) (r : bool) :
      reachable self ->
      add_block self (Block_init i txs ts prev n) proof = Return (r, self') ->
      reachable self'.

(** ** Chains on the wire *)

(** [block.__dict__] as a JSON value: what [get_chain] collects and what a
    peer reads back. *)
Definition Block_data (b : Block) : json := JDict (Block_dict b).

(** The list [chain_data] of [get_chain]. *)
Definition chain_data (self : Blockchain) : json := JList (map Block_data (chain self)).

(** [Block(block_data["index"], ..., block_data["nonce"])]. *)
Definition Block_of_data (block_data : json) : PyResult Block :=
  index <- item block_data "index" ;;
  transactions <- item block_data "transactions" ;;
  timestamp <- item block_data "timestamp" ;;
  previous_hash <- item block_data "previous_hash" ;;
  nonce <- item block_data "nonce" ;;
  Return (Block_init index transactions timestamp previous_hash nonce).

(** The body of [verify_and_add_block], up to the HTTP response;
    [block_data] is [request.get_json()]. *)
Definition verify_and_add_block (self : Blockchain) (block_data : json)
    : PyResult (bool * Blockchain) :=
  block <- Block_of_data block_data ;;
  proof <- item block_data "hash" ;;
  add_block self block proof.

(** The [for] loop of [create_chain_from_dump] over what [chain_dump]
    yields; [idx] is the counter of [enumerate]. *)
Fixpoint create_chain_from_dump_loop (idx : nat) (chain_dump : list json)
    (generated_blockchain : Blockchain) : PyResult Blockchain :=
  match chain_dump with
  | [] => Return generated_blockchain
  | block_data :: rest =>
      if (idx =? 0)%nat
      then create_chain_from_dump_loop (S idx) rest generated_blockchain
      else
        block <- Block_of_data block_data ;;
        proof <- item block_data "hash" ;;
        r <- add_block generated_blockchain block proof ;;
        if negb (fst r)
        then Raise (Exception "The chain dump is tampered!!")
        else create_chain_from_dump_loop (S idx) rest (snd r)
  end.

Definition create_chain_from_dump (chain_dump : json) : PyResult Blockchain :=
  let generated_blockchain := create_genesis_block Blockchain_init in
  entries <- py_iter chain_dump ;;
  create_chain_from_dump_loop 0 entries generated_blockchain.

(** ** Chain validity and consensus *)

(** What [check_chain_validity] may find in the list it is given: a [Block]
    object, or a JSON value (the entries of [response.json()['chain']]). *)
Inductive PyObj : Type :=
  | OBlock (b : Block)
  | OJson (j : json).

(** [cls.<name>] for an attribute called as [f(block, block_hash)]: the
    class body binds [is_valid_proof] and no [is_valid]. *)
Definition Blockchain_getattr (name : string) : PyResult (Block -> json -> PyResult bool) :=
  if String.eqb name "is_valid_proof" then Return is_valid_proof
  else Raise (AttributeError "Blockchain" name).

(** The [for] loop of [check_chain_validity], entered with [previous_hash]. *)
Fixpoint check_chain_validity_loop (previous_hash' : string) (chain : list PyObj)
    : PyResult bool :=
  match chain with
  | [] => Return true
  | OJson j :: _ => Raise (AttributeError (type_name j) "hash")
  | OBlock block :: rest =>
      block_hash <- get_hash block ;;
      block <- delattr_hash block ;;
      is_valid <- Blockchain_getattr "is_valid" ;;
      arg <- get_hash block ;;
      valid <- is_valid block (JStr arg) ;;
      if negb valid || negb (str_eq previous_hash' (previous_hash block))
      then Return false
      else check_chain_validity_loop block_hash rest
  end.

Definition check_chain_validity (chain : list PyObj) : PyResult bool :=
  check_chain_validity_loop "0" chain.

(** [check_chain_validity(chain)] on a JSON value, as [consensus] calls it:
    the [for] loop runs over what the value yields. *)
Definition check_chain_validity_json (chain : json) : PyResult bool :=
  entries <- py_iter chain ;;
  check_chain_validity (map OJson entries).

(** What the global name [blockchain] is bound to: a [Blockchain], or the
    value that [consensus] assigns to it. *)
Inductive Global : Type :=
  | GBlockchain (self : Blockchain)
  | GJson (chain : json).

(** The [for] loop of [consensus] over the answers of the peers
    ([response.json()]), in the order the set yields them. [current_len]
    is a number: the comparison of line 344 raises on anything else. *)
Fixpoint consensus_loop (py : Floats) (peers : list json) (longest_chain : option json)
    (current_len : Number) : PyResult (option json) :=
  match peers with
  | [] => Return longest_chain
  | response :: rest =>
      length <- item response "length" ;;
      chain <- item response "chain" ;;
      match number_of length with
      | None => Raise TypeError
      | Some length =>
          if num_gt py length current_len
          then
            valid <- check_chain_validity_json chain ;;
            if valid
            then consensus_loop py rest (Some chain) length
            else consensus_loop py rest longest_chain current_len
          else consensus_loop py rest longest_chain current_len
      end
  end.

(** [consensus] returns its boolean next to the binding of [blockchain];
    an exception leaves the binding as it was. *)
Definition consensus (py : Floats) (blockchain : Global) (peers : list json)
    : PyResult (bool * Global) :=
  match blockchain with
  | GJson chain => Raise (AttributeError (type_name chain) "chain")
  | GBlockchain self =>
      let current_len := NInt (Z.of_nat (List.length (chain self))) in
      longest_chain <- consensus_loop py peers None current_len ;;
      match longest_chain with
      | Some chain =>
          if truthy chain then Return (true, GJson chain) else Return (false, blockchain)
      | None => Return (false, blockchain)
      end
  end.

(** The synchronisation of [register_with_existing_node] on a 200 answer:
    [blockchain = create_chain_from_dump(chain_dump)]. The outcome is paired
    with the binding of [blockchain] afterwards. *)
Definition register_with_existing_node (blockchain : Global) (chain_dump : json)
    : PyResult unit * Global :=
  match create_chain_from_dump chain_dump with
  | Return generated => (Return tt, GBlockchain generated)
  | Raise e => (Raise e, blockchain)
  end.

(** ** [mine], statement by statement

    The server answers requests concurrently, so other handlers may run
    between two statements of [mine]. The interleavings embedded here are
    those of one running [mine] with [new_transaction] and
    [verify_and_add_block], the search of line 171 taken as one step. *)

(** Where a call of [mine] stands, with its locals. After line 172,
    [added] records the value of [add_block] that the statement drops and
    [position] the place in the chain at which [new_block] was to go. *)
Inductive MineFrame : Type :=
  | Searching (new_block : Block)
  | Admitting (new_block : Block) (proof : string)
  | Clearing (added : bool) (position : nat)
  | Finished (result : bool).

(** Lines 161-169: the test of the pool and the construction of
    [new_block]. *)
Definition mine_enter (py : Floats) (now : json) (self : Blockchain) : PyResult MineFrame :=
  match unconfirmed_transactions self with
  | [] => Return (Finished false)
  | _ :: _ =>
      last <- last_block self ;;
      next_index <- add_one py (index last) ;;
      last_hash <- get_hash last ;;
      Return (Searching (Block_init next_index (JList (unconfirmed_transactions self))
                                    now (JStr last_hash) (JInt 0)))
  end.

(** The next statement of [mine]: line 171, line 172, lines 174-175. *)
Definition mine_step (fuel : nat) (self : Blockchain) (frame : MineFrame)
    : option (PyResult (Blockchain * MineFrame)) :=
  match frame with
  | Searching new_block =>
      match proof_of_work fuel new_block with
      | None => None
      | Some (new_block, proof) => Some (Return (self, Admitting new_block proof))
      end
  | Admitting new_block proof =>
      Some (r <- add_block self new_block (JStr proof) ;;
            Return (snd r, Clearing (fst r) (List.length (chain self))))
  | Clearing _ _ => Some (Return (mkBlockchain [] (chain self), Finished true))
  | Finished result => Some (Return (self, Finished result))
  end.

(** The block whose [transactions] is the list object of the pool, after
    that object has changed to [pool]. *)
Definition sharing_pool (pool : list json) (block : Block) : Block :=
  mkBlock (index block) (JList pool) (timestamp block) (previous_hash block)
          (nonce block) (hash block).

Fixpoint update_at {A : Type} (position : nat) (f : A -> A) (l : list A) : list A :=
  match l, position with
  | [], _ => []
  | x :: r, O => f x :: r
  | x :: r, S p => x :: update_at p f r
  end.

(** [add_new_transaction] while [mine] runs. Line 167 hands the pool
    itself, not a copy, to [new_block]: from there until line 174 rebinds
    the pool, [self.unconfirmed_transactions] and [new_block.transactions]
    are one list object, and an [append] to it shows in [new_block], also
    once [new_block] sits in the chain. *)
Definition add_new_transaction_during (self : Blockchain) (frame : MineFrame)
    (transaction : json) : Blockchain * MineFrame :=
  let pool := unconfirmed_transactions self ++ [transaction] in
  match frame with
  | Searching new_block =>
      (mkBlockchain pool (chain self), Searching (sharing_pool pool new_block))
  | Admitting new_block proof =>
      (mkBlockchain pool (chain self), Admitting (sharing_pool pool new_block) proof)
  | Clearing true position =>
      (mkBlockchain pool (update_at position (sharing_pool pool) (chain self)), frame)
  | Clearing false _ | Finished _ => (mkBlockchain pool (chain self), frame)
  end.

Inductive Event : Type :=
  | MineStep
  | AddBlockRequest (block_data : json)
  | NewTransactionRequest (transaction : json).

(** A schedule of the server: steps of the running [mine] and requests
    handled in between. A request whose handler raises is answered with an
    error and changes nothing. *)
Fixpoint run (fuel : nat) (events : list Event) (self : Blockchain) (frame : MineFrame)
    : option (PyResult (Blockchain * MineFrame)) :=
  match events with
  | [] => Some (Return (self, frame))
  | MineStep :: rest =>
      match mine_step fuel self frame with
      | Some (Return (self, frame)) => run fuel rest self frame
      | other => other
      end
  | AddBlockRequest block_data :: rest =>
      match verify_and_add_block self block_data with
      | Return (_, self) => run fuel rest self frame
      | Raise _ => run fuel rest self frame
      end
  | NewTransactionRequest transaction :: rest =>
      let (self, frame) := add_new_transaction_during self frame transaction in
      run fuel rest self frame
  end.

(** ** Vocabulary of the statements *)

(** The five attributes bound by [__init__], rendered as [dumps] orders
    them (sorted keys), without the surrounding braces. *)
Definition content_string (b : Block) : string :=
  quote "index" +++ ": " +++ dumps (index b) +++ ", "
  +++ quote "nonce" +++ ": " +++ dumps (nonce b) +++ ", "
  +++ quote "previous_hash" +++ ": " +++ dumps (previous_hash b) +++ ", "
  +++ quote "timestamp" +++ ": " +++ dumps (timestamp b) +++ ", "
  +++ quote "transactions" +++ ": " +++ dumps (transactions b).

(** [s] has at least [n] leading ['0'] characters. *)
Definition leading_zeros (n : nat) (s : string) : Prop :=
  forall i, (i < n)%nat -> String.get i s = Some "0"%char.

Definition meets_difficulty (s : string) : bool :=
  startswith s (str_mul "0" difficulty).

(** ** Sample ledgers *)

(** The sample ledgers hold no float where the program does arithmetic;
    they are run with this float arithmetic, which is never called. *)
Definition no_floats : Floats := mkFloats (fun r => r) (fun _ _ => false).

Definition tx1 : json :=
  JDict [("author", JStr "a"); ("content", JStr "hi"); ("timestamp", JFloat "1600000000.25")].

(** The module-level ledger after one [POST /new_transaction]. *)
Definition ledger_pending : Blockchain := add_new_transaction blockchain0 tx1.

Definition genesis_hash : string :=
  "6dbf23122cb5046cc5c0c1b245c75f8e43c59ca8ffeac292715e5078e631d0c9".

(** The block that [mine] builds on [ledger_pending] at time 1600000045.5,
    before and after the search, and as admitted. *)
Definition candidate1 : Block :=
  Block_init (JInt 1) (JList [tx1]) (JFloat "1600000045.5") (JStr genesis_hash) (JInt 0).

Definition hash1 : string :=
  "0066c564f9e477e332eef113387020b0cc06a82ae66f4380967a043e6ae30315".

Definition block1 : Block := set_hash (set_nonce candidate1 1) hash1.

Definition ledger_mined : Blockchain := mkBlockchain [] [genesis_block; block1].

(** A block mined by a peer on the genesis block. *)
Definition peer_hash : string :=
  "00d4649863ab516da5f1bd5be8ea9c962b985da62af80ded0fcc35a8b37bb17c".

Definition peer_block_data : json :=
  JDict [ ("index", JInt 1);
          ("transactions",
           JList [JDict [("author", JStr "p"); ("content", JStr "peer");
                         ("timestamp", JFloat "1600000049.5")]]);
          ("timestamp", JFloat "1600000090.75");
          ("previous_hash", JStr genesis_hash);
          ("nonce", JInt 2);
          ("hash", JStr peer_hash) ].

(** A block with a valid proof of work that does not link to the genesis
    block. *)
Definition stray_hash : string :=
  "005818eb5311f79820868d1a6a2b06ecb91b3c02f22d7001e93d185f29341719".

Definition stray_block : Block :=
  Block_init (JInt 1) (JList [tx1]) (JFloat "1600000151.0") (JStr "00beef") (JInt 0).

(** The dump of [ledger_mined] with one character of the transaction of
    block 1 changed ("hi" to "ho"), its [hash] left as it was. *)
Definition tampered_entry : json :=
  JDict [ ("index", JInt 1);
          ("transactions",
           JList [JDict [("author", JStr "a"); ("content", JStr "ho");
                         ("timestamp", JFloat "1600000000.25")]]);
          ("timestamp", JFloat "1600000045.5");
          ("previous_hash", JStr genesis_hash);
          ("nonce", JInt 1);
          ("hash", JStr hash1) ].

Definition tampered_dump : json := JList [Block_data genesis_block; tampered_entry].

(** A chain of two [Block] objects whose first block carries a proof of
    work as well. *)
Definition mined_first : Block :=
  set_hash (Block_init (JInt 0) (JList []) (JInt 185) (JStr "0") (JInt 0))
           "0054ebc26b0173b59a821a4554c9d290f39f61a96348c7637093c46eae4c540e".

Definition mined_second : Block :=
  set_hash (Block_init (JInt 1) (JList [JDict [("author", JStr "a"); ("content", JStr "hi")]])
                       (JInt 138)
                       (JStr "0054ebc26b0173b59a821a4554c9d290f39f61a96348c7637093c46eae4c540e")
                       (JInt 0))
           "009785e2e7cecd8ea4e81658f12f78dd217f3cde638ef8c81d99664de8dc8ec1".

(** A block that a peer announces on the genesis block, with a valid proof
    of work and the str ["1"] as its index. *)
Definition odd_hash : string :=
  "00229365a8aba59dbf0394f9a210db873bef4c4ddffaea02331f2b360e23f3d8".

Definition odd_block_data : json :=
  JDict [ ("index", JStr "1");
          ("transactions", JList []);
          ("timestamp", JFloat "1600000245.25");
          ("previous_hash", JStr genesis_hash);
          ("nonce", JInt 0);
          ("hash", JStr odd_hash) ].

Definition odd_block : Block :=
  set_hash (Block_init (JStr "1") (JList []) (JFloat "1600000245.25") (JStr genesis_hash)
                       (JInt 0))
           odd_hash.

(** The ledger after that announcement and one [POST /new_transaction]. *)
Definition ledger_odd : Blockchain := mkBlockchain [tx1] [genesis_block; odd_block].

(** ** The words of the specification *)

(** Chain validity as the specification words it: the stored [hash] is
    discarded, the digest recomputed; it must carry the prefix, the block
    must link to the recomputed digest of the one before ("0" at the start)
    and the indices count up from 0. *)
Fixpoint spec_is_valid_chain (previous_digest : string) (expected_index : Z)
    (chain : list Block) : bool :=
  match chain with
  | [] => true
  | block :: rest =>
      let digest := compute_hash (without_hash block) in
      meets_difficulty digest
      && str_eq previous_digest (previous_hash block)
      && match index block with
         | JInt i => i =? expected_index
         | _ => false
         end
      && spec_is_valid_chain digest (expected_index + 1) rest
  end.

(** ** Invariants of the chain *)

(** [b] carries a [hash] that is the digest of its content, [hash]
    excluded. *)
Definition sealed (b : Block) : Prop :=
  exists h, hash b = Some h /\ h = compute_hash (without_hash b).

(** [b] is sealed with a digest that has the required prefix. *)
Definition mined (b : Block) : Prop :=
  exists h, hash b = Some h
            /\ leading_zeros (Z.to_nat difficulty) h
            /\ h = compute_hash (without_hash b).

(** The chain is the genesis block followed by mined blocks. *)
Definition chain_inv (self : Blockchain) : Prop :=
  exists rest, chain self = genesis_block :: rest /\ Forall mined rest.

(** [if self.unconfirmed_transactions:]. *)
Definition pending (self : Blockchain) : bool :=
  match unconfirmed_transactions self with
  | [] => false
  | _ :: _ => true
  end.

(** [mine] as the run of its statements with nothing in between. *)
Definition mine_alone (py : Floats) (fuel : nat) (now : json) (self : Blockchain)
    : option (PyResult (bool * Blockchain)) :=
  match mine_enter py now self with
  | Raise e => Some (Raise e)
  | Return frame =>
      match run fuel [MineStep; MineStep; MineStep] self frame with
      | Some (Return (self, Finished result)) => Some (Return (result, self))
      | Some (Return _) => None
      | Some (Raise e) => Some (Raise e)
      | None => None
      end
  end.

Definition peer_block : Block :=
  set_hash (Block_init (JInt 1)
              (JList [JDict [("author", JStr "p"); ("content", JStr "peer");
                             ("timestamp", JFloat "1600000049.5")]])
              (JFloat "1600000090.75") (JStr genesis_hash) (JInt 2))
           peer_hash.

Definition tx2 : json :=
  JDict [("author", JStr "b"); ("content", JStr "yo"); ("timestamp", JFloat "1600000046.0")].

(** ** The request handlers *)

(** The [for] loop of [new_transaction] over [required_fields]: whether it
    reaches its end without returning. *)
Fixpoint has_required_fields (tx_data : list (string * json)) (required_fields : list string)
    : bool :=
  match required_fields with
  | [] => true
  | field :: rest =>
      if negb (truthy (dict_get tx_data field)) then false
      else has_required_fields tx_data rest
  end.

(** [new_transaction]: [tx_data] is [request.get_json()], [now] the value
    of [time.time()]; the answer is the body and the status. *)
Definition new_transaction (now : json) (blockchain : Blockchain) (tx_data : json)
    : PyResult ((string * Z) * Blockchain) :=
  let required_fields := ["author"; "content"] in
  match tx_data with
  | JDict items =>
      if has_required_fields items required_fields
      then
        let tx_data := JDict (dict_set items "timestamp" now) in
        Return (("Success", 201), add_new_transaction blockchain tx_data)
      else Return (("Invalid transaction data", 404), blockchain)
  | _ => Raise (AttributeError (type_name tx_data) "get")
  end.

(** What a client reads in the answer of [get_chain]; [peers] is
    [list(peers)]. *)
Definition get_chain (blockchain : Blockchain) (peers : list json) : json :=
  JDict [ ("length", JInt (Z.of_nat (List.length (chain blockchain))));
          ("chain", chain_data blockchain);
          ("peers", JList peers) ].

(** A peer: its address in [peers] and what it answers to [GET /chain]. *)
Record Peer : Type := mkPeer {
  address : string;
  answer : json
}.

(** [announce_new_block]: the requests it posts, each with its URL and its
    body, [json.dumps(block.__dict__, sort_keys=True)]. *)
Definition announce_new_block (peers : list Peer) (block : Block) : list (string * string) :=
  map (fun peer => (address peer +++ "add_block", block_string block)) peers.

(** The body of an answer: a text, or [template.format(value)]. *)
Inductive Body : Type :=
  | Text (s : string)
  | Format (template : string) (value : json).

(** [mine_unconfirmed_transactions]: the answer with the requests posted to
    the peers, next to the binding of [blockchain] that the handler leaves,
    also when it raises. *)
Definition mine_unconfirmed_transactions (py : Floats) (fuel : nat) (now : json)
    (blockchain : Blockchain) (peers : list Peer)
    : option (PyResult (Body * list (string * string)) * Global) :=
  match mine py fuel now blockchain with
  | None => None
  | Some (Raise e) => Some (Raise e, GBlockchain blockchain)
  | Some (Return (result, blockchain)) =>
      if negb result
      then Some (Return (Text "No txs to mine", []), GBlockchain blockchain)
      else
        let chain_length := List.length (chain blockchain) in
        match consensus py (GBlockchain blockchain) (map answer peers) with
        | Raise e => Some (Raise e, GBlockchain blockchain)
        | Return (_, GJson chain) =>
            Some (Raise (AttributeError (type_name chain) "chain"), GJson chain)
        | Return (_, GBlockchain blockchain) =>
            match last_block blockchain with
            | Raise e => Some (Raise e, GBlockchain blockchain)
            | Return last =>
                let posted :=
                  if (chain_length =? List.length (chain blockchain))%nat
                  then announce_new_block peers last
                  else [] in
                Some (Return (Format "Block #{} is mined." (index last), posted),
                      GBlockchain blockchain)
            end
        end
  end.

(** ** More vocabulary *)

(** Every block of [chain] carries a hash, and links to the hash of the
    block before it, [h] for the first. *)
Fixpoint linked_from (h : string) (chain : list Block) : Prop :=
  match chain with
  | [] => True
  | b :: rest =>
      previous_hash b = JStr h /\ exists hb, hash b = Some hb /\ linked_from hb rest
  end.

(** The hash of the last block of [chain], [h] when it is empty. *)
Fixpoint tip_hash (h : string) (chain : list Block) : option string :=
  match chain with
  | [] => Some h
  | b :: rest =>
      match hash b with
      | Some hb => tip_hash hb rest
      | None => None
      end
  end.

(** The chain of a ledger is the genesis block followed by mined blocks,
    each linked to the one before. *)
Definition well_linked (self : Blockchain) : Prop :=
  exists rest, chain self = genesis_block :: rest
               /\ Forall mined rest
               /\ linked_from genesis_hash rest.

(** A ledger grown by this node's own [mine] only. *)
Inductive self_mined : Blockchain -> Prop :=
  | self_init : self_mined blockchain0
  | self_new_transaction (self : Blockchain) (transaction : json) :
      self_mined self -> self_mined (add_new_transaction self transaction)
  | self_mine (self self' : Blockchain) (py : Floats) (fuel : nat) (now : json) (r : bool) :
      self_mined self -> mine py fuel now self = Some (Return (r, self')) -> self_mined self'.

(** The answer [response] of a peer is a dict that reports the int [n] as
    its [length] and carries a [chain]. *)
Definition reports (response : json) (n : Z) : Prop :=
  item response "length" = Return (JInt n)
  /\ exists chain, item response "chain" = Return chain.

(** The exceptions that leave [consensus]: a missing key or a value that
    is no dict in the answer of a peer, a [length] that is no number or a
    [chain] that cannot be iterated, and [block.hash] on an entry of a
    chain. *)
Definition consensus_failure (e : PyExn) : Prop :=
  e = KeyError "length" \/ e = KeyError "chain" \/ e = TypeError
  \/ exists owner, e = AttributeError owner "hash".

(** The entry [block_data] of a dump carries, field for field, what the
    block [b] holds. *)
Definition entry_of (b : Block) (block_data : json) : Prop :=
  Block_of_data block_data = Return (without_hash b)
  /\ exists h, hash b = Some h /\ item block_data "hash" = Return (JStr h).

(** * Properties *)

(** ** The embedding against CPython: digests of sample values *)

Example sha256_abc :
  sha256_hex "abc" = "ba7816bf8f01cfea414140de5dae2223b00361a396177a9cb410ff61f20015ad".
Proof. vm_compute. reflexivity. Qed.

Example sha256_two_blocks :
  sha256_hex "abcdbcdecdefdefgefghfghighijhijkijkljklmklmnlmnomnopnopq"
  = "248d6a61d20638b8e5c026930c3e6039a33ce45964ff2167f6ecedd419db06c1".
Proof. vm_compute. reflexivity. Qed.

Example dumps_sample :
  sha256_hex
    (dumps (JDict [("n", JNull); ("f", JFloat "1.5"); ("i", JInt (-12)); ("b", JBool true);
                   ("a", JStr (String (chr 127) (String (chr 255) ("x" +++ String (chr 34)
                           ("\" +++ String (chr 10) (String (chr 9) (String (chr 1) " ~")))))));
                   ("l", JList [JInt 0; JDict []; JList [];
                                JDict [("z", JInt 1); ("Z", JInt 2); ("aa", JInt 3); ("a", JInt 4)]])]))
  = "45f643704ce9db773ba24caf721be74d896cbd3554e4a58f43d8a28ebd61b40a".
Proof. vm_compute. reflexivity. Qed.

Example genesis_digest :
  get_hash genesis_block
  = Return "6dbf23122cb5046cc5c0c1b245c75f8e43c59ca8ffeac292715e5078e631d0c9".
Proof. vm_compute. reflexivity. Qed.

(** The digest is used as a black box below. *)
Arguments sha256_hex : simpl never.
Arguments compute_hash : simpl never.
Arguments dumps : simpl never.

(** ** The digest input *)

Lemma append_assoc (a b c : string) : (a +++ b) +++ c = a +++ (b +++ c).
Proof. induction a as [|x a IH]; simpl; [reflexivity | now rewrite IH]. Qed.

Lemma dumps_dict (items : list (string * json)) :
  dumps (JDict items)
  = "{" +++ join ", " (map (fun kv => quote (fst kv) +++ ": " +++ snd kv)
                            (sort_items (map (fun kv => (fst kv, dumps (snd kv))) items)))
        +++ "}".
Proof. reflexivity. Qed.

Lemma block_string_unsealed (b : Block) :
  hash b = None -> block_string b = "{" +++ content_string b +++ "}".
Proof.
  intros H. unfold block_string, Block_dict. rewrite H, dumps_dict.
  cbn [map fst snd app sort_items fold_right].
  unfold content_string.
  cbn -[dumps]. repeat (rewrite !append_assoc; cbn -[dumps]). reflexivity.
Qed.

Lemma block_string_sealed (b : Block) (h : string) :
  hash b = Some h ->
  block_string b
  = "{" +++ quote "hash" +++ ": " +++ dumps (JStr h) +++ ", " +++ content_string b +++ "}".
Proof.
  intros H. unfold block_string, Block_dict. rewrite H, dumps_dict.
  cbn [map fst snd app sort_items fold_right].
  unfold content_string.
  cbn -[dumps]. repeat (rewrite !append_assoc; cbn -[dumps]). reflexivity.
Qed.

Lemma block_string_hash_matters (b : Block) (h : string) :
  block_string (set_hash b h) <> block_string (without_hash b).
Proof.
  rewrite (block_string_sealed (set_hash b h) h eq_refl).
  rewrite (block_string_unsealed (without_hash b) eq_refl).
  unfold content_string. cbn -[dumps]. intros H. discriminate H.
Qed.

(** ** Leading zeros *)

Lemma str_mul_zero_succ (n : nat) :
  str_mul "0" (Z.of_nat (S n)) = String "0" (str_mul "0" (Z.of_nat n)).
Proof.
  unfold str_mul. rewrite !Nat2Z.id. cbn [repeat String.concat].
  destruct (repeat "0" n) eqn:E; reflexivity.
Qed.

Lemma startswith_zeros (n : nat) (s : string) :
  startswith s (str_mul "0" (Z.of_nat n)) = true <-> leading_zeros n s.
Proof.
  revert s. induction n as [|n IH]; intros s.
  - split; [intros _ i Hi; lia | intros _; destruct s; reflexivity].
  - rewrite str_mul_zero_succ. unfold startswith. destruct s as [|c s]; cbn [prefix].
    + split; [discriminate | intros H]. specialize (H 0%nat ltac:(lia)). discriminate H.
    + destruct (ascii_dec "0" c) as [<-|Hc].
      * fold (startswith s (str_mul "0" (Z.of_nat n))). rewrite IH. split.
        -- intros H [|i] Hi; [reflexivity | apply H; lia].
        -- intros H i Hi. apply (H (S i)). lia.
      * split; [discriminate | intros H]. specialize (H 0%nat ltac:(lia)).
        cbn in H. congruence.
Qed.

Lemma meets_difficulty_iff (s : string) :
  meets_difficulty s = true <-> leading_zeros (Z.to_nat difficulty) s.
Proof. apply (startswith_zeros 2). Qed.

Lemma is_valid_hash_iff (b : Block) (d : string) :
  is_valid_hash b d = true
  <-> leading_zeros (Z.to_nat difficulty) d /\ d = compute_hash b.
Proof.
  unfold is_valid_hash. fold (meets_difficulty d).
  rewrite andb_true_iff, meets_difficulty_iff, String.eqb_eq. reflexivity.
Qed.

(** A proof that [is_valid_proof] accepts is a str. *)
Lemma is_valid_proof_true (b : Block) (proof : json) :
  is_valid_proof b proof = Return true ->
  exists d, proof = JStr d /\ is_valid_hash b d = true.
Proof.
  unfold is_valid_proof. destruct proof; try discriminate.
  intros H. injection H as H. now exists s.
Qed.

(** ** The nonce search *)

Lemma set_nonce_step (b : Block) (k : Z) :
  set_nonce (set_nonce b k) (k + 1) = set_nonce b (k + 1).
Proof. reflexivity. Qed.

Lemma proof_of_work_loop_mono (fuel : nat) :
  forall b n h r, proof_of_work_loop fuel b n h = Some r ->
  forall fuel', (fuel <= fuel')%nat -> proof_of_work_loop fuel' b n h = Some r.
Proof.
  induction fuel as [|fuel IH]; intros b n h r H fuel' Hle.
  - cbn [proof_of_work_loop] in H.
    destruct (startswith h (str_mul "0" difficulty)) eqn:E; [|discriminate].
    destruct fuel'; cbn [proof_of_work_loop]; rewrite E; exact H.
  - destruct fuel' as [|fuel']; [lia|].
    cbn [proof_of_work_loop] in *.
    destruct (startswith h (str_mul "0" difficulty)); [exact H|].
    apply (IH _ _ _ _ H). lia.
Qed.

Lemma proof_of_work_loop_reaches (gap : nat) :
  forall (b : Block) (k : Z) (fuel : nat),
  (forall j, 0 <= j < Z.of_nat gap ->
             meets_difficulty (compute_hash (set_nonce b (k + j))) = false) ->
  meets_difficulty (compute_hash (set_nonce b (k + Z.of_nat gap))) = true ->
  (gap <= fuel)%nat ->
  proof_of_work_loop fuel (set_nonce b k) k (compute_hash (set_nonce b k))
  = Some (set_nonce b (k + Z.of_nat gap), compute_hash (set_nonce b (k + Z.of_nat gap))).
Proof.
  induction gap as [|gap IH]; intros b k fuel Hbelow Hat Hfuel.
  - replace (k + Z.of_nat 0) with k in * by lia.
    unfold meets_difficulty in Hat.
    destruct fuel; cbn [proof_of_work_loop]; rewrite Hat; reflexivity.
  - destruct fuel as [|fuel]; [lia|]. cbn [proof_of_work_loop].
    assert (H0 := Hbelow 0 ltac:(lia)). replace (k + 0) with k in H0 by lia.
    unfold meets_difficulty in H0. rewrite H0, set_nonce_step.
    replace (k + Z.of_nat (S gap)) with ((k + 1) + Z.of_nat gap) in * by lia.
    apply IH; [|exact Hat|lia].
    intros j Hj. replace (k + 1 + j) with (k + (j + 1)) by lia. apply Hbelow. lia.
Qed.

(** The least number satisfying a boolean predicate that some number
    satisfies. *)
Lemma least_true (f : nat -> bool) (n : nat) :
  f n = true ->
  exists m, (m <= n)%nat /\ f m = true /\ forall j, (j < m)%nat -> f j = false.
Proof.
  induction n as [n IH] using (well_founded_induction Wf_nat.lt_wf). intros Hn.
  destruct (existsb f (seq 0 n)) eqn:E.
  - apply existsb_exists in E as (j & Hj & Hfj). apply in_seq in Hj.
    destruct (IH j ltac:(lia) Hfj) as (m & Hm & Hfm & Hleast).
    exists m. repeat split; [lia | exact Hfm | exact Hleast].
  - exists n. repeat split; [lia | exact Hn |]. intros j Hj.
    destruct (f j) eqn:Efj; [|reflexivity].
    assert (existsb f (seq 0 n) = true) as Hx; [|congruence].
    apply existsb_exists. exists j. split; [apply in_seq; lia | exact Efj].
Qed.

Lemma proof_of_work_finds (b : Block) (n : nat) :
  meets_difficulty (compute_hash (set_nonce b (Z.of_nat n))) = true ->
  (forall j, (j < n)%nat -> meets_difficulty (compute_hash (set_nonce b (Z.of_nat j))) = false) ->
  forall fuel, (n <= fuel)%nat ->
  proof_of_work fuel b
  = Some (set_nonce b (Z.of_nat n), compute_hash (set_nonce b (Z.of_nat n))).
Proof.
  intros Hat Hbelow fuel Hfuel. unfold proof_of_work.
  change (set_nonce b (Z.of_nat n)) with (set_nonce (set_nonce b 0) (0 + Z.of_nat n)).
  change (set_nonce b 0) with (set_nonce (set_nonce b 0) 0) at 1 2.
  apply (proof_of_work_loop_reaches n (set_nonce b 0) 0 fuel); [|exact Hat|exact Hfuel].
  intros j Hj. change (set_nonce (set_nonce b 0) (0 + j)) with (set_nonce b (0 + j)).
  replace (0 + j) with (Z.of_nat (Z.to_nat j)) by lia. apply Hbelow. lia.
Qed.

Lemma proof_of_work_mono (fuel fuel' : nat) (b : Block) (r : Block * string) :
  proof_of_work fuel b = Some r -> (fuel <= fuel')%nat -> proof_of_work fuel' b = Some r.
Proof. unfold proof_of_work. intros H Hle. exact (proof_of_work_loop_mono _ _ _ _ _ H _ Hle). Qed.

(** The search ends as soon as some nonce is admissible, on the least one. *)
Lemma proof_of_work_total (b : Block) :
  (exists n, 0 <= n /\ meets_difficulty (compute_hash (set_nonce b n)) = true) ->
  exists m : nat,
    meets_difficulty (compute_hash (set_nonce b (Z.of_nat m))) = true /\
    (forall j, 0 <= j < Z.of_nat m ->
               meets_difficulty (compute_hash (set_nonce b j)) = false) /\
    (forall fuel, (m <= fuel)%nat ->
       proof_of_work fuel b
       = Some (set_nonce b (Z.of_nat m), compute_hash (set_nonce b (Z.of_nat m)))) /\
    (forall fuel r, proof_of_work fuel b = Some r ->
       r = (set_nonce b (Z.of_nat m), compute_hash (set_nonce b (Z.of_nat m)))).
Proof.
  intros (n & Hn & Hadm).
  destruct (least_true
              (fun k => meets_difficulty (compute_hash (set_nonce b (Z.of_nat k))))
              (Z.to_nat n)) as (m & Hm & Hfm & Hleast).
  { rewrite Z2Nat.id by exact Hn. exact Hadm. }
  assert (Hrun : forall fuel, (m <= fuel)%nat ->
            proof_of_work fuel b
            = Some (set_nonce b (Z.of_nat m), compute_hash (set_nonce b (Z.of_nat m))))
    by (intros fuel Hfuel; apply proof_of_work_finds; assumption).
  exists m. repeat split.
  - exact Hfm.
  - intros j Hj. replace j with (Z.of_nat (Z.to_nat j)) by lia. apply Hleast. lia.
  - exact Hrun.
  - intros fuel r Hr.
    assert (H := proof_of_work_mono fuel (Nat.max fuel m) b r Hr ltac:(lia)).
    rewrite (Hrun (Nat.max fuel m) ltac:(lia)) in H. congruence.
Qed.

(** ** The sample ledgers *)

Example genesis_hash_eq : hash genesis_block = Some genesis_hash.
Proof. vm_compute. reflexivity. Qed.

Example mine_ledger_pending (py : Floats) :
  mine py 1 (JFloat "1600000045.5") ledger_pending = Some (Return (true, ledger_mined)).
Proof. vm_compute. reflexivity. Qed.

Example hash1_admissible : is_valid_proof (set_nonce candidate1 1) (JStr hash1) = Return true.
Proof. vm_compute. reflexivity. Qed.

Example stray_admissible : is_valid_proof stray_block (JStr stray_hash) = Return true.
Proof. vm_compute. reflexivity. Qed.

(** ** [compute_hash] *)

(** C5, as stated, fails: the digest of the genesis block, whose [hash] is
    assigned, is not the digest of the same block without it. *)
Lemma compute_hash_hash_counterexample :
  compute_hash genesis_block <> compute_hash (without_hash genesis_block).
Proof. vm_compute. intros H. discriminate H. Qed.

(** C5 (amended). [compute_hash] digests the serialisation of the whole
    [__dict__]: for a block with no [hash] attribute these are exactly
    [index], [nonce], [previous_hash], [timestamp] and [transactions] in
    sorted order; once [hash] is assigned it is serialised first, so the
    digest input is another string; the digest excluding [hash] is obtained
    by deleting the attribute before the call. *)
Theorem compute_hash_covers_dict (b : Block) (h : string) :
  compute_hash (without_hash b) = sha256_hex ("{" +++ content_string b +++ "}")
  /\ compute_hash (set_hash b h)
     = sha256_hex ("{" +++ quote "hash" +++ ": " +++ dumps (JStr h) +++ ", "
                       +++ content_string b +++ "}")
  /\ block_string (set_hash b h) <> block_string (without_hash b)
  /\ (r <- delattr_hash (set_hash b h) ;; Return (compute_hash r))
     = Return (compute_hash (without_hash b)).
Proof.
  split; [|split; [|split]].
  - unfold compute_hash. now rewrite (block_string_unsealed (without_hash b) eq_refl).
  - unfold compute_hash. now rewrite (block_string_sealed (set_hash b h) h eq_refl).
  - apply block_string_hash_matters.
  - reflexivity.
Qed.

(** ** [is_valid_proof] *)

(** C8, as stated, fails on a block whose [hash] is assigned: [block1] with
    its own admitted digest, which carries the prefix and is the digest of
    the block with [hash] excluded, is not a valid proof. *)
Lemma is_valid_proof_counterexample :
  ~ (is_valid_proof block1 (JStr hash1) = Return true
     <-> leading_zeros (Z.to_nat difficulty) hash1
         /\ hash1 = compute_hash (without_hash block1)).
Proof.
  intros [_ H].
  assert (Hf : is_valid_proof block1 (JStr hash1) = Return false) by (vm_compute; reflexivity).
  rewrite H in Hf; [discriminate Hf|]. split.
  - apply meets_difficulty_iff. vm_compute. reflexivity.
  - vm_compute. reflexivity.
Qed.

(** C8 (amended). For every block with no [hash] attribute assigned (the
    state in which [add_block] receives its candidates) and every claimed
    digest, [is_valid_proof] is true if and only if the digest (a str) has
    at least [difficulty] leading '0' characters and equals the recomputed
    digest of the block; a digest handed in by the caller never suffices
    alone. *)
Theorem is_valid_proof_unsealed (b : Block) (proof : json) :
  hash b = None ->
  (is_valid_proof b proof = Return true
   <-> exists d, proof = JStr d
                 /\ leading_zeros (Z.to_nat difficulty) d
                 /\ d = compute_hash (without_hash b)).
Proof.
  intros H. replace (without_hash b) with b by (destruct b; cbn in H; subst; reflexivity).
  split.
  - intros Hv. apply is_valid_proof_true in Hv as (d & -> & Hd).
    exists d. split; [reflexivity|]. now apply is_valid_hash_iff.
  - intros (d & -> & Hd). cbn [is_valid_proof]. f_equal. now apply is_valid_hash_iff.
Qed.

Lemma is_valid_proof_unsealed_witness :
  is_valid_proof (set_nonce candidate1 1) (JStr hash1) = Return true
  <-> exists d, JStr hash1 = JStr d
                /\ leading_zeros (Z.to_nat difficulty) d
                /\ d = compute_hash (without_hash (set_nonce candidate1 1)).
Proof. apply (is_valid_proof_unsealed (set_nonce candidate1 1) (JStr hash1)). reflexivity. Defined.

(** ** [add_block] *)

Lemma str_eq_true (s : string) (j : json) : str_eq s j = true <-> j = JStr s.
Proof.
  unfold str_eq. destruct j; try (split; discriminate).
  rewrite String.eqb_eq. split; [now intros -> | now intros [= ->]].
Qed.

Lemma add_block_cases (self : Blockchain) (block : Block) (proof : json)
    (r : bool) (self' : Blockchain) :
  add_block self block proof = Return (r, self') ->
  (r = false /\ self' = self)
  \/ (r = true
      /\ exists d head head_hash,
           proof = JStr d
           /\ self' = mkBlockchain (unconfirmed_transactions self)
                                   (chain self ++ [set_hash block d])
           /\ is_valid_hash block d = true
           /\ last_block self = Return head
           /\ hash head = Some head_hash
           /\ previous_hash block = JStr head_hash).
Proof.
  unfold add_block. destruct (last_block self) as [head|e] eqn:Hl; cbn [bind]; [|discriminate].
  unfold get_hash. destruct (hash head) as [hh|] eqn:Hh; cbn [bind]; [|discriminate].
  destruct (str_eq hh (previous_hash block)) eqn:Heq; cbn [negb].
  - unfold is_valid_proof. destruct proof; cbn [bind]; try discriminate.
    destruct (is_valid_hash block s) eqn:Hv; cbn [negb bind_hash]; intros H; inversion H; subst.
    + right. split; [reflexivity|]. exists s, head, hh.
      apply str_eq_true in Heq.
      split; [reflexivity | split; [reflexivity | split; [exact Hv | split; [reflexivity |
        split; [exact Hh | exact Heq]]]]].
    + left. now split.
  - intros H; inversion H; subst. left. now split.
Qed.

(** C7. Whenever the candidate's [previous_hash] differs from the hash of
    the current head, [add_block] returns [False] and leaves the ledger as
    it was, chain and pool; the proof is not consulted, so this holds also
    for a digest that passes [is_valid_proof]. *)
Theorem add_block_linkage_mismatch (self : Blockchain) (head block : Block)
    (head_hash : string) (proof : json) :
  last_block self = Return head ->
  hash head = Some head_hash ->
  previous_hash block <> JStr head_hash ->
  add_block self block proof = Return (false, self).
Proof.
  intros Hl Hh Hne. unfold add_block. rewrite Hl. cbn [bind].
  unfold get_hash. rewrite Hh. cbn [bind].
  destruct (str_eq head_hash (previous_hash block)) eqn:E; [|reflexivity].
  apply str_eq_true in E. congruence.
Qed.

Lemma add_block_linkage_mismatch_witness :
  add_block ledger_pending stray_block (JStr stray_hash) = Return (false, ledger_pending).
Proof.
  apply (add_block_linkage_mismatch ledger_pending genesis_block stray_block genesis_hash).
  - reflexivity.
  - vm_compute. reflexivity.
  - vm_compute. intros H. discriminate H.
Defined.

(** ** [proof_of_work] *)

(** C9. When some non-negative nonce gives the block a digest with the
    prefix, [proof_of_work] returns (for every bound on the search from some
    bound on, and with no other result under any bound) the block with only
    its nonce changed, to the least such nonce, and the digest of that
    block, which [is_valid_proof] accepts for it. *)
Theorem proof_of_work_least_nonce (block : Block) :
  (exists n, 0 <= n
             /\ leading_zeros (Z.to_nat difficulty) (compute_hash (set_nonce block n))) ->
  exists (block' : Block) (n : Z) (proof : string),
    (exists fuel, forall fuel', (fuel <= fuel')%nat ->
                                proof_of_work fuel' block = Some (block', proof))
    /\ (forall fuel r, proof_of_work fuel block = Some r -> r = (block', proof))
    /\ block' = set_nonce block n
    /\ nonce block' = JInt n
    /\ 0 <= n
    /\ leading_zeros (Z.to_nat difficulty) (compute_hash block')
    /\ (forall j, 0 <= j < n ->
          ~ leading_zeros (Z.to_nat difficulty) (compute_hash (set_nonce block j)))
    /\ proof = compute_hash block'
    /\ is_valid_proof block' (JStr proof) = Return true.
Proof.
  intros (n & Hn & Hadm). apply meets_difficulty_iff in Hadm.
  destruct (proof_of_work_total block (ex_intro _ n (conj Hn Hadm)))
    as (m & Hm & Hleast & Hrun & Huniq).
  exists (set_nonce block (Z.of_nat m)), (Z.of_nat m),
         (compute_hash (set_nonce block (Z.of_nat m))).
  split; [exists m; exact Hrun|]. split; [exact Huniq|].
  split; [reflexivity|]. split; [reflexivity|]. split; [lia|].
  split; [apply meets_difficulty_iff; exact Hm|]. split.
  - intros j Hj Hz. apply meets_difficulty_iff in Hz.
    rewrite (Hleast j Hj) in Hz. discriminate Hz.
  - split; [reflexivity|]. cbn [is_valid_proof]. f_equal.
    apply is_valid_hash_iff. split; [apply meets_difficulty_iff; exact Hm | reflexivity].
Qed.

Lemma proof_of_work_least_nonce_witness :
  exists (block' : Block) (n : Z) (proof : string),
    (exists fuel, forall fuel', (fuel <= fuel')%nat ->
                                proof_of_work fuel' candidate1 = Some (block', proof))
    /\ (forall fuel r, proof_of_work fuel candidate1 = Some r -> r = (block', proof))
    /\ block' = set_nonce candidate1 n
    /\ nonce block' = JInt n
    /\ 0 <= n
    /\ leading_zeros (Z.to_nat difficulty) (compute_hash block')
    /\ (forall j, 0 <= j < n ->
          ~ leading_zeros (Z.to_nat difficulty) (compute_hash (set_nonce candidate1 j)))
    /\ proof = compute_hash block'
    /\ is_valid_proof block' (JStr proof) = Return true.
Proof.
  apply (proof_of_work_least_nonce candidate1).
  exists 1. split; [lia|]. apply meets_difficulty_iff. vm_compute. reflexivity.
Defined.

Lemma proof_of_work_loop_shape (fuel : nat) :
  forall b n h b' p, proof_of_work_loop fuel (set_nonce b n) n h = Some (b', p) ->
                     exists m, b' = set_nonce b m.
Proof.
  induction fuel as [|fuel IH]; intros b n h b' p; cbn [proof_of_work_loop];
    destruct (startswith h (str_mul "0" difficulty)).
  - intros H; inversion H; subst. now exists n.
  - discriminate.
  - intros H; inversion H; subst. now exists n.
  - rewrite set_nonce_step. apply IH.
Qed.

Lemma proof_of_work_shape (fuel : nat) (b b' : Block) (p : string) :
  proof_of_work fuel b = Some (b', p) -> exists m, b' = set_nonce b m.
Proof. unfold proof_of_work. apply proof_of_work_loop_shape. Qed.

(** ** Reachable ledgers *)

Lemma sealed_set_hash (block : Block) (d : string) :
  hash block = None -> is_valid_hash block d = true -> mined (set_hash block d).
Proof.
  intros Hn Hv. apply is_valid_hash_iff in Hv as [Hz Heq].
  exists d. split; [reflexivity|]. split; [exact Hz|].
  rewrite Heq. f_equal. destruct block; cbn in Hn; subst; reflexivity.
Qed.

Lemma add_block_chain_inv (self self' : Blockchain) (block : Block) (proof : json) (r : bool) :
  chain_inv self -> hash block = None ->
  add_block self block proof = Return (r, self') -> chain_inv self'.
Proof.
  intros (rest & Hc & Hall) Hn H.
  apply add_block_cases in H as [[_ ->] | (_ & d & head & hh & _ & -> & Hv & _)].
  - now exists rest.
  - exists (rest ++ [set_hash block d]). cbn [chain]. rewrite Hc. split; [reflexivity|].
    apply Forall_app. split; [exact Hall|].
    constructor; [|constructor]. now apply sealed_set_hash.
Qed.

Lemma mine_chain_inv (py : Floats) (self self' : Blockchain) (fuel : nat) (now : json)
    (r : bool) :
  chain_inv self -> mine py fuel now self = Some (Return (r, self')) -> chain_inv self'.
Proof.
  intros Hinv. unfold mine.
  destruct (unconfirmed_transactions self) as [|tx pool] eqn:Hp.
  { intros H; inversion H; subst. exact Hinv. }
  destruct (last_block self) as [last|e]; [|discriminate].
  destruct (add_one py (index last)) as [next_index|e]; [|discriminate].
  destruct (get_hash last) as [last_hash|e]; [|discriminate].
  destruct (proof_of_work fuel _) as [[new_block proof]|] eqn:Hpow; [|discriminate].
  destruct (add_block self new_block (JStr proof)) as [[added self1]|e] eqn:Hadd;
    cbn [bind snd]; [|discriminate].
  intros H; inversion H; subst.
  apply proof_of_work_shape in Hpow as (m & Hpow).
  assert (Hn : hash new_block = None) by (rewrite Hpow; reflexivity).
  destruct (add_block_chain_inv _ _ _ _ _ Hinv Hn Hadd) as (rest & Hc & Hall).
  now exists rest.
Qed.

Lemma reachable_chain_inv (self : Blockchain) : reachable self -> chain_inv self.
Proof.
  induction 1 as [|self tx _ IH|self self' py fuel now r _ IH Hm
                  |self self' i txs ts prev n proof r _ IH Ha].
  - exists []. split; [reflexivity | constructor].
  - exact IH.
  - exact (mine_chain_inv _ _ _ _ _ _ IH Hm).
  - exact (add_block_chain_inv self self' (Block_init i txs ts prev n) proof r IH eq_refl Ha).
Qed.

Lemma genesis_block_sealed : sealed genesis_block.
Proof.
  exists (compute_hash (Block_init (JInt 0) (JList []) (JInt 0) (JStr "0") (JInt 0))).
  split; reflexivity.
Qed.

(** C6, as stated, fails at index 0 of the initial ledger: the hash of
    the genesis block is its digest, which has no leading zero. *)
Lemma genesis_hash_counterexample :
  reachable blockchain0
  /\ nth_error (chain blockchain0) 0 = Some genesis_block
  /\ ~ (exists h, hash genesis_block = Some h
                  /\ leading_zeros (Z.to_nat difficulty) h
                  /\ h = compute_hash (without_hash genesis_block)).
Proof.
  split; [constructor|]. split; [reflexivity|].
  intros (h & Hh & Hz & _). rewrite genesis_hash_eq in Hh. injection Hh as <-.
  apply meets_difficulty_iff in Hz. vm_compute in Hz. discriminate Hz.
Qed.

(** C6 (amended). In every ledger reachable from the initial one by
    [add_new_transaction], [mine] and [add_block], every block of the chain
    carries a hash equal to the recomputed digest of its content with [hash]
    excluded; the block at index 0 is the genesis block, sealed without a
    search, and at every index from 1 on the hash has at least [difficulty]
    leading '0' characters. *)
Theorem reachable_chain_digests (self : Blockchain) :
  reachable self ->
  forall (i : nat) (b : Block), nth_error (chain self) i = Some b ->
    exists h, hash b = Some h
              /\ h = compute_hash (without_hash b)
              /\ (i = 0%nat -> b = genesis_block)
              /\ (i <> 0%nat -> leading_zeros (Z.to_nat difficulty) h).
Proof.
  intros Hr i b Hi. destruct (reachable_chain_inv self Hr) as (rest & Hc & Hall).
  rewrite Hc in Hi. destruct i as [|i]; cbn [nth_error] in Hi.
  - injection Hi as <-. destruct genesis_block_sealed as (h & Hh & Heq).
    exists h. split; [exact Hh | split; [exact Heq | split; [reflexivity | congruence]]].
  - apply nth_error_In in Hi. rewrite Forall_forall in Hall.
    destruct (Hall b Hi) as (h & Hh & Hz & Heq).
    exists h. split; [exact Hh | split; [exact Heq | split; [discriminate | intros _; exact Hz]]].
Qed.

Lemma reachable_ledger_mined : reachable ledger_mined.
Proof.
  apply (reach_mine ledger_pending ledger_mined no_floats 1 (JFloat "1600000045.5") true).
  - apply reach_new_transaction, reach_init.
  - exact (mine_ledger_pending no_floats).
Qed.

Lemma reachable_chain_digests_witness :
  exists h, hash block1 = Some h
            /\ h = compute_hash (without_hash block1)
            /\ (1%nat = 0%nat -> block1 = genesis_block)
            /\ (1%nat <> 0%nat -> leading_zeros (Z.to_nat difficulty) h).
Proof.
  apply (reachable_chain_digests ledger_mined reachable_ledger_mined 1 block1).
  reflexivity.
Defined.

(** ** [mine], run alone *)

Lemma proof_of_work_loop_sound (fuel : nat) :
  forall b n b' p, proof_of_work_loop fuel b n (compute_hash b) = Some (b', p) ->
                   p = compute_hash b' /\ meets_difficulty p = true.
Proof.
  induction fuel as [|fuel IH]; intros b n b' p; cbn [proof_of_work_loop];
    destruct (startswith (compute_hash b) (str_mul "0" difficulty)) eqn:E.
  - intros H; inversion H; subst. now split.
  - discriminate.
  - intros H; inversion H; subst. now split.
  - apply IH.
Qed.

Lemma proof_of_work_sound (fuel : nat) (b b' : Block) (p : string) :
  proof_of_work fuel b = Some (b', p) -> is_valid_hash b' p = true.
Proof.
  unfold proof_of_work. intros H. apply proof_of_work_loop_sound in H as [-> Hz].
  unfold is_valid_hash. fold (meets_difficulty (compute_hash b')).
  rewrite Hz, String.eqb_refl. reflexivity.
Qed.

Lemma add_block_accepts (self : Blockchain) (head block : Block) (head_hash d : string) :
  last_block self = Return head ->
  hash head = Some head_hash ->
  previous_hash block = JStr head_hash ->
  is_valid_hash block d = true ->
  add_block self block (JStr d)
  = Return (true, mkBlockchain (unconfirmed_transactions self)
                               (chain self ++ [set_hash block d])).
Proof.
  intros Hl Hh Hp Hv. unfold add_block. rewrite Hl. cbn [bind].
  unfold get_hash. rewrite Hh. cbn [bind]. rewrite Hp. cbn [str_eq].
  rewrite String.eqb_refl. cbn [negb is_valid_proof bind]. rewrite Hv. reflexivity.
Qed.

(** What a run of [mine] does once the search has ended. *)
Lemma mine_after_search (py : Floats) (self : Blockchain) (head : Block) (head_hash : string)
    (next_index now : json) (fuel : nat) (new_block : Block) (proof : string) :
  last_block self = Return head ->
  hash head = Some head_hash ->
  add_one py (index head) = Return next_index ->
  pending self = true ->
  proof_of_work fuel (Block_init next_index (JList (unconfirmed_transactions self))
                                 now (JStr head_hash) (JInt 0))
  = Some (new_block, proof) ->
  add_block self new_block (JStr proof)
  = Return (true, mkBlockchain (unconfirmed_transactions self)
                               (chain self ++ [set_hash new_block proof]))
  /\ mine py fuel now self
     = Some (Return (true, mkBlockchain [] (chain self ++ [set_hash new_block proof]))).
Proof.
  intros Hl Hh Hi Hp Hpow.
  assert (Hadd : add_block self new_block (JStr proof)
                 = Return (true, mkBlockchain (unconfirmed_transactions self)
                                              (chain self ++ [set_hash new_block proof]))).
  { apply (add_block_accepts self head new_block head_hash);
      [exact Hl | exact Hh | | exact (proof_of_work_sound _ _ _ _ Hpow)].
    destruct (proof_of_work_shape _ _ _ _ Hpow) as (m & ->). reflexivity. }
  split; [exact Hadd|].
  unfold mine, pending in *. destruct (unconfirmed_transactions self) as [|tx pool];
    [discriminate|].
  rewrite Hl, Hi. unfold get_hash. rewrite Hh, Hpow, Hadd. reflexivity.
Qed.

(** When the index of the head is not a number, [mine] on a non-empty pool
    raises [TypeError] at [last_block.index + 1]. *)
Lemma mine_index_type_error (py : Floats) (fuel : nat) (now : json) (self : Blockchain)
    (head : Block) :
  last_block self = Return head ->
  number_of (index head) = None ->
  pending self = true ->
  mine py fuel now self = Some (Raise TypeError).
Proof.
  intros Hl Hn Hp. unfold mine, pending in *.
  destruct (unconfirmed_transactions self); [discriminate|].
  rewrite Hl. unfold add_one. rewrite Hn. reflexivity.
Qed.

Example ledger_odd_admitted :
  verify_and_add_block blockchain0 odd_block_data
  = Return (true, mkBlockchain [] [genesis_block; odd_block]).
Proof. vm_compute. reflexivity. Qed.

Lemma reachable_ledger_odd : reachable ledger_odd.
Proof.
  apply (reach_new_transaction (mkBlockchain [] [genesis_block; odd_block]) tx1).
  apply (reach_add_block blockchain0 _ (JStr "1") (JList []) (JFloat "1600000245.25")
           (JStr genesis_hash) (JInt 0) (JStr odd_hash) true reach_init).
  exact ledger_odd_admitted.
Qed.

(** C10, as stated, fails: after a peer has announced a block whose index
    is the str ["1"] (which [verify_and_add_block] admits, the index being
    looked at nowhere), [mine] on a non-empty pool does not return: it
    raises [TypeError] at [last_block.index + 1]. *)
Lemma mine_type_error_counterexample :
  verify_and_add_block blockchain0 odd_block_data
  = Return (true, mkBlockchain [] [genesis_block; odd_block])
  /\ reachable ledger_odd
  /\ pending ledger_odd = true
  /\ (forall py fuel now, mine py fuel now ledger_odd = Some (Raise TypeError))
  /\ ~ (forall py fuel now res, mine py fuel now ledger_odd = Some res ->
          exists self', res = Return (pending ledger_odd, self')).
Proof.
  assert (H : forall py fuel now, mine py fuel now ledger_odd = Some (Raise TypeError)).
  { intros py fuel now.
    apply (mine_index_type_error py fuel now ledger_odd odd_block); reflexivity. }
  split; [exact ledger_odd_admitted|]. split; [exact reachable_ledger_odd|].
  split; [reflexivity|]. split; [exact H|].
  intros Hc. destruct (Hc no_floats 0%nat JNull _ (H no_floats 0%nat JNull)) as (s & Hs).
  discriminate Hs.
Qed.

(** C10 (amended). On a ledger whose head carries a hash and a number as
    its index (so that [last_block.index + 1] evaluates), and with no other
    handler running: every run of [mine] that ends returns, with [True]
    exactly when the pool was not empty; on an empty pool it returns [False]
    and changes nothing; on a non-empty pool, if some nonce is admissible for
    the candidate ([index = head.index + 1], [previous_hash = head.hash]),
    the search ends and [add_block] accepts the candidate with the proof
    found, so that the chain grows by that block and the pool is emptied. *)
Theorem mine_succeeds_iff_pending (py : Floats) (self : Blockchain) (head : Block)
    (head_hash : string) (next_index now : json) :
  last_block self = Return head ->
  hash head = Some head_hash ->
  add_one py (index head) = Return next_index ->
  (forall fuel res, mine py fuel now self = Some res ->
     exists self', res = Return (pending self, self'))
  /\ (pending self = false -> forall fuel, mine py fuel now self = Some (Return (false, self)))
  /\ (pending self = true ->
      (exists n, 0 <= n
         /\ leading_zeros (Z.to_nat difficulty)
              (compute_hash (set_nonce (Block_init next_index
                                          (JList (unconfirmed_transactions self)) now
                                          (JStr head_hash) (JInt 0)) n))) ->
      exists (new_block : Block) (proof : string),
        index new_block = next_index
        /\ previous_hash new_block = JStr head_hash
        /\ transactions new_block = JList (unconfirmed_transactions self)
        /\ add_block self new_block (JStr proof)
           = Return (true, mkBlockchain (unconfirmed_transactions self)
                                        (chain self ++ [set_hash new_block proof]))
        /\ exists fuel, forall fuel', (fuel <= fuel')%nat ->
             proof_of_work fuel' (Block_init next_index (JList (unconfirmed_transactions self))
                                             now (JStr head_hash) (JInt 0))
             = Some (new_block, proof)
             /\ mine py fuel' now self
                = Some (Return (true, mkBlockchain []
                                        (chain self ++ [set_hash new_block proof])))).
Proof.
  intros Hl Hh Hi. split; [|split].
  - intros fuel res H. destruct (pending self) eqn:Hp.
    + assert (H' := H). unfold mine, pending in H', Hp.
      destruct (unconfirmed_transactions self) as [|tx pool] eqn:Hpool; [discriminate|].
      rewrite Hl, Hi in H'. unfold get_hash in H'. rewrite Hh in H'.
      destruct (proof_of_work fuel _) as [[new_block proof]|] eqn:Hpow; [|discriminate].
      rewrite <- Hpool in Hpow.
      assert (Hpending : pending self = true) by (unfold pending; now rewrite Hpool).
      destruct (mine_after_search py self head head_hash next_index now fuel new_block proof
                  Hl Hh Hi Hpending Hpow) as [_ Hm].
      rewrite Hm in H. inversion H; subst. eexists. reflexivity.
    + unfold mine, pending in *. destruct (unconfirmed_transactions self); [|discriminate].
      inversion H; subst. now exists self.
  - intros Hp fuel. unfold mine, pending in *.
    destruct (unconfirmed_transactions self); [reflexivity | discriminate].
  - intros Hp (n & Hn & Hadm). apply meets_difficulty_iff in Hadm.
    destruct (proof_of_work_total _ (ex_intro _ n (conj Hn Hadm)))
      as (m & _ & _ & Hrun & _).
    eexists _, _. split; [|split; [|split; [|split]]].
    4:{ exact (proj1 (mine_after_search py self head head_hash next_index now m _ _
                                         Hl Hh Hi Hp (Hrun m (Nat.le_refl m)))). }
    1-3: reflexivity.
    exists m. intros fuel' Hfuel. split; [exact (Hrun fuel' Hfuel)|].
    exact (proj2 (mine_after_search py self head head_hash next_index now fuel' _ _
                                    Hl Hh Hi Hp (Hrun fuel' Hfuel))).
Qed.

Lemma mine_succeeds_iff_pending_witness :
  exists (new_block : Block) (proof : string),
    index new_block = JInt 1
    /\ previous_hash new_block = JStr genesis_hash
    /\ transactions new_block = JList (unconfirmed_transactions ledger_pending)
    /\ add_block ledger_pending new_block (JStr proof)
       = Return (true, mkBlockchain (unconfirmed_transactions ledger_pending)
                                    (chain ledger_pending ++ [set_hash new_block proof]))
    /\ exists fuel, forall fuel', (fuel <= fuel')%nat ->
         proof_of_work fuel' (Block_init (JInt 1) (JList (unconfirmed_transactions ledger_pending))
                                         (JFloat "1600000045.5") (JStr genesis_hash) (JInt 0))
         = Some (new_block, proof)
         /\ mine no_floats fuel' (JFloat "1600000045.5") ledger_pending
            = Some (Return (true, mkBlockchain []
                                    (chain ledger_pending ++ [set_hash new_block proof]))).
Proof.
  apply (proj2 (proj2 (mine_succeeds_iff_pending no_floats ledger_pending genesis_block
                         genesis_hash (JInt 1) (JFloat "1600000045.5")
                         eq_refl genesis_hash_eq eq_refl))).
  - reflexivity.
  - exists 1. split; [lia|]. apply meets_difficulty_iff. vm_compute. reflexivity.
Defined.

(** ** [check_chain_validity] and [consensus] *)

Lemma check_chain_validity_nonempty (previous_hash' : string) (x : PyObj) (chain : list PyObj) :
  exists owner attr,
    check_chain_validity_loop previous_hash' (x :: chain) = Raise (AttributeError owner attr).
Proof.
  destruct x as [b|j]; cbn [check_chain_validity_loop].
  - unfold get_hash, delattr_hash. destruct (hash b); cbn; eauto.
  - eauto.
Qed.

Lemma check_chain_validity_returns (chain : list PyObj) (r : bool) :
  check_chain_validity chain = Return r -> chain = [] /\ r = true.
Proof.
  destruct chain as [|x chain]; unfold check_chain_validity.
  - cbn. intros H; inversion H; now split.
  - destruct (check_chain_validity_nonempty "0" x chain) as (o & a & ->). discriminate.
Qed.

(** C2: the code against the claim. On a chain of two blocks that is valid
    in the words of the specification, [check_chain_validity] raises
    [AttributeError] where the claim has it return [True]: the class has no
    [is_valid]; given the same chain as dicts, [block.hash] raises already. *)
Theorem check_chain_validity_raises :
  spec_is_valid_chain "0" 0 [mined_first; mined_second] = true
  /\ check_chain_validity [OBlock mined_first; OBlock mined_second]
     = Raise (AttributeError "Blockchain" "is_valid")
  /\ check_chain_validity [OJson (Block_data mined_first); OJson (Block_data mined_second)]
     = Raise (AttributeError "dict" "hash").
Proof.
  split; [vm_compute; reflexivity|]. split; reflexivity.
Qed.

(** [check_chain_validity] on a JSON value: [True] on a value that yields
    nothing (and is false as a condition), an exception on the rest. *)
Lemma check_chain_validity_json_cases (chain : json) :
  (check_chain_validity_json chain = Return true /\ truthy chain = false)
  \/ check_chain_validity_json chain = Raise TypeError
  \/ (exists x rest, py_iter chain = Return (x :: rest)
        /\ check_chain_validity_json chain = Raise (AttributeError (type_name x) "hash")).
Proof.
  destruct chain as [| b | z | r | s | l | items]; unfold check_chain_validity_json;
    cbn [py_iter bind]; try (right; left; reflexivity).
  - destruct s as [|c s]; cbn [characters map]; [left; split; reflexivity|].
    right; right. eexists _, _. split; reflexivity.
  - destruct l as [|x l]; cbn [map]; [left; split; reflexivity|].
    right; right. eexists _, _. split; reflexivity.
  - destruct items as [|[k v] items]; cbn [map]; [left; split; reflexivity|].
    right; right. eexists _, _. split; reflexivity.
Qed.

Lemma item_cases (j : json) (key : string) :
  (exists v, item j key = Return v) \/ item j key = Raise (KeyError key)
  \/ item j key = Raise TypeError.
Proof.
  destruct j; cbn [item]; try (right; right; reflexivity).
  destruct (dict_has _ key); [left; eauto | right; left; reflexivity].
Qed.

Lemma consensus_loop_no_winner (py : Floats) (peers : list json) :
  forall (longest_chain : option json) (current_len : Number),
  (longest_chain = None \/ exists c, longest_chain = Some c /\ truthy c = false) ->
  (exists r, consensus_loop py peers longest_chain current_len = Return r
             /\ (r = None \/ exists c, r = Some c /\ truthy c = false))
  \/ (exists e, consensus_loop py peers longest_chain current_len = Raise e
                /\ consensus_failure e).
Proof.
  unfold consensus_failure.
  induction peers as [|response rest IH]; intros longest_chain current_len Hl;
    cbn [consensus_loop].
  - left. now exists longest_chain.
  - destruct (item_cases response "length") as [(len & ->) | [-> | ->]]; cbn [bind];
      [| right; eexists; split; [reflexivity | tauto]..].
    destruct (item_cases response "chain") as [(c & ->) | [-> | ->]]; cbn [bind];
      [| right; eexists; split; [reflexivity | tauto]..].
    destruct (number_of len) as [n|]; [| right; eexists; split; [reflexivity | tauto]].
    destruct (num_gt py n current_len); [|now apply IH].
    destruct (check_chain_validity_json_cases c) as [[-> Ht] | [-> | (x & l & _ & ->)]];
      cbn [bind].
    + apply IH. right. now exists c.
    + right. eexists. split; [reflexivity | tauto].
    + right. eexists. split; [reflexivity|]. right; right; right. now eexists.
Qed.

(** [consensus] never replaces the ledger. *)
Lemma consensus_never_replaces (py : Floats) (self : Blockchain) (peers : list json) :
  consensus py (GBlockchain self) peers = Return (false, GBlockchain self)
  \/ exists e, consensus py (GBlockchain self) peers = Raise e /\ consensus_failure e.
Proof.
  unfold consensus.
  destruct (consensus_loop_no_winner py peers None
              (NInt (Z.of_nat (List.length (chain self)))) (or_introl eq_refl))
    as [(r & -> & [-> | (c & -> & Ht)]) | (e & -> & He)]; cbn [bind].
  - now left.
  - rewrite Ht. now left.
  - right. now exists e.
Qed.

Example create_chain_from_dump_ledger_mined :
  create_chain_from_dump (chain_data ledger_mined) = Return ledger_mined.
Proof. vm_compute. reflexivity. Qed.

(** C3: the code against the claim. The local ledger is the initial one
    (length 1); one peer answers with length 2 and the dump of
    [ledger_mined], which [create_chain_from_dump] rebuilds into a ledger
    satisfying the chain invariant. The claim has [consensus] replace the
    ledger; the code raises [AttributeError] in [check_chain_validity]. *)
Theorem consensus_raises_on_longer_chain :
  2 > Z.of_nat (List.length (chain blockchain0))
  /\ get_chain ledger_mined []
     = JDict [("length", JInt 2); ("chain", chain_data ledger_mined); ("peers", JList [])]
  /\ create_chain_from_dump (chain_data ledger_mined) = Return ledger_mined
  /\ chain_inv ledger_mined
  /\ forall py : Floats,
       consensus py (GBlockchain blockchain0) [get_chain ledger_mined []]
       = Raise (AttributeError "dict" "hash").
Proof.
  split; [reflexivity|]. split; [reflexivity|].
  split; [exact create_chain_from_dump_ledger_mined|].
  split; [exact (reachable_chain_inv _ reachable_ledger_mined) | reflexivity].
Qed.

(** ** [create_chain_from_dump] *)

Lemma create_chain_from_dump_loop_app (l1 l2 : list json) :
  forall (idx : nat) (generated : Blockchain),
  create_chain_from_dump_loop idx (l1 ++ l2) generated
  = (g <- create_chain_from_dump_loop idx l1 generated ;;
     create_chain_from_dump_loop (idx + List.length l1) l2 g).
Proof.
  induction l1 as [|d l1 IH]; intros idx generated; cbn [app create_chain_from_dump_loop List.length].
  - cbn [bind]. now rewrite Nat.add_0_r.
  - replace (idx + S (List.length l1))%nat with (S idx + List.length l1)%nat by lia.
    destruct (idx =? 0)%nat; [apply IH|].
    destruct (Block_of_data d) as [block|e]; cbn [bind]; [|reflexivity].
    destruct (item d "hash") as [proof|e]; cbn [bind]; [|reflexivity].
    destruct (add_block generated block proof) as [[r g]|e]; cbn [bind fst snd];
      [|reflexivity].
    destruct r; cbn [negb]; [apply IH | reflexivity].
Qed.

(** C4, as stated, fails: on the tampered dump of scenario D the call does
    not return to its caller, it raises. *)
Lemma create_chain_from_dump_counterexample :
  create_chain_from_dump tampered_dump = Raise (Exception "The chain dump is tampered!!")
  /\ ~ returns (create_chain_from_dump tampered_dump).
Proof.
  assert (H : create_chain_from_dump tampered_dump
              = Raise (Exception "The chain dump is tampered!!"))
    by (vm_compute; reflexivity).
  split; [exact H|]. intros [g Hg]. rewrite H in Hg. discriminate Hg.
Qed.

(** C4 (amended). When the replay of a dump reaches a block (after the
    first entry, which is skipped) that [add_block] refuses, the blocks
    before it having been admitted, [create_chain_from_dump] stops there by
    raising [Exception("The chain dump is tampered!!")] to its caller and
    builds no ledger; in [register_with_existing_node] the assignment to
    [blockchain] is then not reached, so the local ledger stays as it was. *)
Theorem create_chain_from_dump_tampered (first bad : json) (before after : list json)
    (generated generated' : Blockchain) (block : Block) (proof : json) :
  create_chain_from_dump (JList (first :: before)) = Return generated ->
  Block_of_data bad = Return block ->
  item bad "hash" = Return proof ->
  add_block generated block proof = Return (false, generated') ->
  create_chain_from_dump (JList (first :: before ++ bad :: after))
  = Raise (Exception "The chain dump is tampered!!")
  /\ forall blockchain : Global,
       register_with_existing_node blockchain (JList (first :: before ++ bad :: after))
       = (Raise (Exception "The chain dump is tampered!!"), blockchain).
Proof.
  intros Hpre Hblock Hproof Hadd.
  assert (H : create_chain_from_dump (JList (first :: before ++ bad :: after))
              = Raise (Exception "The chain dump is tampered!!")).
  { unfold create_chain_from_dump in *. cbn [py_iter bind] in *.
    change (first :: before ++ bad :: after) with ((first :: before) ++ bad :: after).
    rewrite create_chain_from_dump_loop_app, Hpre. cbn [bind create_chain_from_dump_loop].
    cbn [Nat.add List.length Nat.eqb]. rewrite Hblock, Hproof. cbn [bind].
    rewrite Hadd. reflexivity. }
  split; [exact H|]. intros blockchain. unfold register_with_existing_node. now rewrite H.
Qed.

Lemma create_chain_from_dump_tampered_witness :
  create_chain_from_dump tampered_dump = Raise (Exception "The chain dump is tampered!!")
  /\ forall blockchain : Global,
       register_with_existing_node blockchain tampered_dump
       = (Raise (Exception "The chain dump is tampered!!"), blockchain).
Proof.
  apply (create_chain_from_dump_tampered
           (Block_data genesis_block) tampered_entry [] [] blockchain0 blockchain0
           (Block_init (JInt 1)
              (JList [JDict [("author", JStr "a"); ("content", JStr "ho");
                             ("timestamp", JFloat "1600000000.25")]])
              (JFloat "1600000045.5") (JStr genesis_hash) (JInt 1))
           (JStr hash1)).
  - reflexivity.
  - reflexivity.
  - reflexivity.
  - vm_compute. reflexivity.
Defined.

(** ** [mine] among other requests *)

Lemma mine_alone_eq (py : Floats) (fuel : nat) (now : json) (self : Blockchain) :
  mine py fuel now self = mine_alone py fuel now self.
Proof.
  unfold mine, mine_alone, mine_enter.
  destruct (unconfirmed_transactions self) as [|tx pool]; [reflexivity|].
  destruct (last_block self) as [last|e]; cbn [bind]; [|reflexivity].
  destruct (add_one py (index last)) as [next_index|e]; cbn [bind]; [|reflexivity].
  destruct (get_hash last) as [last_hash|e]; cbn [bind]; [|reflexivity].
  cbn [run mine_step].
  destruct (proof_of_work fuel _) as [[new_block proof]|]; [|reflexivity].
  cbn [run mine_step].
  destruct (add_block self new_block (JStr proof)) as [[r self']|e]; reflexivity.
Qed.

(** Line 174 does not look at what [add_block] returned. *)
Lemma mine_step_clears (fuel : nat) (self : Blockchain) (added : bool) (position : nat) :
  mine_step fuel self (Clearing added position)
  = Some (Return (mkBlockchain [] (chain self), Finished true)).
Proof. reflexivity. Qed.

(** C1: the code against the claim. [mine] runs on the ledger holding
    [tx1]; after its search and before its [add_block], the node admits a
    block announced by a peer. The [add_block] of [mine] then fails (the
    head has moved), and [mine] goes on to empty the pool and return
    [True]: [tx1] is in no block and no longer pending. *)
Theorem mine_clears_pool_after_rejection :
  (forall py : Floats,
     mine_enter py (JFloat "1600000045.5") ledger_pending = Return (Searching candidate1))
  /\ run 1 [MineStep; AddBlockRequest peer_block_data; MineStep]
         ledger_pending (Searching candidate1)
     = Some (Return (mkBlockchain [tx1] [genesis_block; peer_block], Clearing false 2))
  /\ run 1 [MineStep; AddBlockRequest peer_block_data; MineStep; MineStep]
         ledger_pending (Searching candidate1)
     = Some (Return (mkBlockchain [] [genesis_block; peer_block], Finished true)).
Proof.
  split; [intros py; vm_compute; reflexivity|]. split; vm_compute; reflexivity.
Qed.

(** A transaction queued while [mine] is between its search and its
    [add_block] lands in [new_block] as well (the pool was not copied): the
    proof no longer fits, the block is refused, and both transactions are
    dropped with the pool. *)
Example mine_drops_transaction_queued_meanwhile :
  run 1 [MineStep; NewTransactionRequest tx2; MineStep]
      ledger_pending (Searching candidate1)
  = Some (Return (mkBlockchain [tx1; tx2] [genesis_block], Clearing false 1))
  /\ run 1 [MineStep; NewTransactionRequest tx2; MineStep; MineStep]
         ledger_pending (Searching candidate1)
     = Some (Return (mkBlockchain [] [genesis_block], Finished true)).
Proof. split; vm_compute; reflexivity. Qed.

(** * Further properties of the code *)

(** ** Linkage along the chain *)

Lemma tip_hash_app (l : list Block) :
  forall (h : string) (b : Block),
  tip_hash h (l ++ [b])
  = match tip_hash h l with
    | Some _ => hash b
    | None => None
    end.
Proof.
  induction l as [|x l IH]; intros h b; cbn [app tip_hash].
  - destruct (hash b); reflexivity.
  - destruct (hash x); [apply IH | reflexivity].
Qed.

Lemma linked_from_tip (l : list Block) :
  forall h, linked_from h l -> exists t, tip_hash h l = Some t.
Proof.
  induction l as [|x l IH]; intros h H; cbn [tip_hash].
  - now exists h.
  - destruct H as (_ & hx & Hx & Hl). rewrite Hx. now apply IH.
Qed.

Lemma linked_from_app (l1 l2 : list Block) :
  forall h, linked_from h (l1 ++ l2)
  <-> linked_from h l1 /\ exists t, tip_hash h l1 = Some t /\ linked_from t l2.
Proof.
  induction l1 as [|x l1 IH]; intros h; cbn [app linked_from tip_hash].
  - split.
    + intros H. split; [exact I|]. now exists h.
    + intros (_ & t & Ht & H). now inversion Ht; subst.
  - split.
    + intros (Hp & hx & Hx & H). apply IH in H as (H1 & t & Ht & H2).
      split; [split; [exact Hp | now exists hx]|]. rewrite Hx. now exists t.
    + intros ((Hp & hx & Hx & H1) & t & Ht & H2). rewrite Hx in Ht.
      split; [exact Hp|]. exists hx. split; [exact Hx|]. apply IH. split; [exact H1|].
      now exists t.
Qed.

Lemma last_block_snoc (pool : list json) (l : list Block) (b : Block) :
  last_block (mkBlockchain pool (l ++ [b])) = Return b.
Proof. unfold last_block. cbn [chain]. now rewrite rev_app_distr. Qed.

(** The head of a chain that starts with a sealed block and is linked from
    there is the block that carries the tip hash. *)
Lemma last_block_tip (l : list Block) :
  forall (pool : list json) (b0 : Block) (h0 : string),
  hash b0 = Some h0 -> linked_from h0 l ->
  exists head t, last_block (mkBlockchain pool (b0 :: l)) = Return head
                 /\ hash head = Some t /\ tip_hash h0 l = Some t.
Proof.
  induction l as [|x l IH] using rev_ind; intros pool b0 h0 H0 Hl.
  - exists b0, h0. now repeat split.
  - change (b0 :: l ++ [x]) with ((b0 :: l) ++ [x]). rewrite last_block_snoc.
    apply linked_from_app in Hl as (_ & t & Ht & (_ & hx & Hx & _)).
    exists x, hx. rewrite tip_hash_app, Ht. now repeat split.
Qed.

Lemma well_linked_head (self : Blockchain) :
  well_linked self ->
  exists head t, last_block self = Return head /\ hash head = Some t.
Proof.
  intros (rest & Hc & _ & Hl). destruct self as [pool ch]. cbn [chain] in Hc. subst ch.
  destruct (last_block_tip rest pool genesis_block genesis_hash genesis_hash_eq Hl)
    as (head & t & H1 & H2 & _).
  now exists head, t.
Qed.

Lemma add_block_well_linked (self self' : Blockchain) (block : Block) (proof : json)
    (r : bool) :
  well_linked self -> hash block = None ->
  add_block self block proof = Return (r, self') -> well_linked self'.
Proof.
  intros (rest & Hc & Hall & Hl) Hn H.
  apply add_block_cases in H
    as [[_ ->] | (_ & d & head & hh & _ & -> & Hv & Hhead & Hh & Hp)].
  - now exists rest.
  - exists (rest ++ [set_hash block d]). cbn [chain]. rewrite Hc.
    split; [reflexivity|]. split.
    + apply Forall_app. split; [exact Hall|]. constructor; [|constructor].
      now apply sealed_set_hash.
    + destruct self as [pool ch]. cbn [chain] in Hc. subst ch.
      destruct (last_block_tip rest pool genesis_block genesis_hash genesis_hash_eq Hl)
        as (head' & t & H1 & H2 & H3).
      rewrite H1 in Hhead. inversion Hhead; subst head'.
      apply linked_from_app. split; [exact Hl|]. exists t. split; [exact H3|].
      cbn [linked_from set_hash previous_hash hash]. split; [congruence|].
      exists d. now split.
Qed.

(** Every return of [mine]: nothing happened on an empty pool; otherwise the
    chain has grown by the block found by the search on the candidate, and
    the pool is empty. *)
Lemma mine_cases (py : Floats) (fuel : nat) (now : json) (self self' : Blockchain) (r : bool) :
  mine py fuel now self = Some (Return (r, self')) ->
  (pending self = false /\ r = false /\ self' = self)
  \/ (pending self = true /\ r = true
      /\ exists last last_hash next_index new_block proof,
           last_block self = Return last
           /\ hash last = Some last_hash
           /\ add_one py (index last) = Return next_index
           /\ proof_of_work fuel (Block_init next_index (JList (unconfirmed_transactions self))
                                            now (JStr last_hash) (JInt 0))
              = Some (new_block, proof)
           /\ self' = mkBlockchain [] (chain self ++ [set_hash new_block proof])).
Proof.
  intros H. destruct (pending self) eqn:Hp.
  - right. split; [reflexivity|].
    assert (Hsearch : exists last last_hash next_index new_block proof,
               last_block self = Return last
               /\ hash last = Some last_hash
               /\ add_one py (index last) = Return next_index
               /\ proof_of_work fuel (Block_init next_index
                                                (JList (unconfirmed_transactions self))
                                                now (JStr last_hash) (JInt 0))
                  = Some (new_block, proof)).
    { unfold mine, pending in H, Hp.
      destruct (unconfirmed_transactions self) as [|tx pool]; [discriminate|].
      destruct (last_block self) as [last|e]; [|discriminate].
      destruct (add_one py (index last)) as [next_index|e] eqn:Hi; [|discriminate].
      unfold get_hash in H. destruct (hash last) as [last_hash|] eqn:Hh; [|discriminate].
      destruct (proof_of_work fuel _) as [[new_block proof]|] eqn:Hpow; [|discriminate].
      exists last, last_hash, next_index, new_block, proof.
      split; [reflexivity | split; [exact Hh | split; [exact Hi | exact Hpow]]]. }
    destruct Hsearch as (last & last_hash & next_index & new_block & proof & Hl & Hh & Hi & Hpow).
    destruct (mine_after_search py self last last_hash next_index now fuel new_block proof
                Hl Hh Hi Hp Hpow) as [_ Hm].
    rewrite Hm in H. inversion H; subst. split; [reflexivity|].
    exists last, last_hash, next_index, new_block, proof.
    split; [exact Hl | split; [exact Hh | split; [exact Hi | split; [exact Hpow | reflexivity]]]].
  - left. unfold mine, pending in *. destruct (unconfirmed_transactions self); [|discriminate].
    inversion H; subst. split; [reflexivity | split; reflexivity].
Qed.

Lemma mine_well_linked (py : Floats) (self self' : Blockchain) (fuel : nat) (now : json)
    (r : bool) :
  well_linked self -> mine py fuel now self = Some (Return (r, self')) -> well_linked self'.
Proof.
  intros Hinv H.
  apply mine_cases in H
    as [(_ & _ & ->) | (Hp & _ & last & lh & ni & nb & proof & Hl & Hh & Hi & Hpow & ->)];
    [exact Hinv|].
  destruct (mine_after_search py self last lh ni now fuel nb proof Hl Hh Hi Hp Hpow)
    as [Hadd _].
  assert (Hn : hash nb = None).
  { destruct (proof_of_work_shape _ _ _ _ Hpow) as (m & ->). reflexivity. }
  destruct (add_block_well_linked _ _ _ _ _ Hinv Hn Hadd) as (rest & Hc & Hall & Hlk).
  now exists rest.
Qed.

Lemma reachable_well_linked (self : Blockchain) : reachable self -> well_linked self.
Proof.
  induction 1 as [|self tx _ IH|self self' py fuel now r _ IH Hm
                  |self self' i txs ts prev n proof r _ IH Ha].
  - exists []. split; [reflexivity|]. split; [constructor | exact I].
  - exact IH.
  - exact (mine_well_linked _ _ _ _ _ _ IH Hm).
  - exact (add_block_well_linked self self' (Block_init i txs ts prev n) proof r IH eq_refl Ha).
Qed.

Lemma linked_from_nth (l : list Block) :
  forall (b0 : Block) (h0 : string),
  hash b0 = Some h0 -> linked_from h0 l ->
  forall (i : nat) (b c : Block),
    nth_error (b0 :: l) i = Some b -> nth_error (b0 :: l) (S i) = Some c ->
    exists h, hash b = Some h /\ previous_hash c = JStr h.
Proof.
  induction l as [|x l IH]; intros b0 h0 H0 Hl i b c Hb Hc.
  - destruct i; cbn in Hc; discriminate.
  - destruct Hl as (Hp & hx & Hx & Hl). destruct i as [|i].
    + cbn in Hb, Hc. inversion Hb; inversion Hc; subst. now exists h0.
    + cbn [nth_error] in Hb. change (nth_error (b0 :: x :: l) (S (S i)))
        with (nth_error (x :: l) (S i)) in Hc.
      exact (IH x hx Hx Hl i b c Hb Hc).
Qed.

(** X1. In every reachable ledger the chain starts with a block of index 0
    whose [previous_hash] is ["0"], and every later block's [previous_hash]
    is the hash of the block just before it. *)
Theorem reachable_chain_linked (self : Blockchain) :
  reachable self ->
  (exists b0, nth_error (chain self) 0 = Some b0
              /\ index b0 = JInt 0 /\ previous_hash b0 = JStr "0")
  /\ forall (i : nat) (b c : Block),
       nth_error (chain self) i = Some b ->
       nth_error (chain self) (S i) = Some c ->
       exists h, hash b = Some h /\ previous_hash c = JStr h.
Proof.
  intros Hr. destruct (reachable_well_linked self Hr) as (rest & Hc & _ & Hl).
  rewrite Hc. split.
  - exists genesis_block. split; [reflexivity | split; reflexivity].
  - exact (linked_from_nth rest genesis_block genesis_hash genesis_hash_eq Hl).
Qed.

Lemma reachable_chain_linked_witness :
  exists h, hash genesis_block = Some h /\ previous_hash block1 = JStr h.
Proof.
  apply (proj2 (reachable_chain_linked ledger_mined reachable_ledger_mined) 0%nat);
    reflexivity.
Defined.

(** X2. On a reachable ledger the head carries a hash, and [add_block],
    given any candidate and any JSON value as the proof, does one of three
    things. When the candidate's [previous_hash] is not the hash of the head
    it returns [False], whatever the proof. When the link matches and the
    proof is not a str, it raises [AttributeError] at
    [block_hash.startswith]. When the link matches and the proof is a str,
    it returns [True] exactly when the proof is valid for the candidate, and
    the chain is then extended by the candidate carrying the proof as its
    hash. In every case but that last one the ledger is left as it was; the
    pool and the blocks already in the chain are never touched. *)
Theorem add_block_on_reachable (self : Blockchain) (block : Block) (proof : json) :
  reachable self ->
  exists head head_hash,
    last_block self = Return head
    /\ hash head = Some head_hash
    /\ add_block self block proof
       = if str_eq head_hash (previous_hash block)
         then match proof with
              | JStr d =>
                  Return (if is_valid_hash block d
                          then (true, mkBlockchain (unconfirmed_transactions self)
                                                   (chain self ++ [set_hash block d]))
                          else (false, self))
              | _ => Raise (AttributeError (type_name proof) "startswith")
              end
         else Return (false, self).
Proof.
  intros Hr.
  destruct (well_linked_head self (reachable_well_linked self Hr)) as (head & t & Hl & Hh).
  exists head, t. split; [exact Hl|]. split; [exact Hh|].
  unfold add_block. rewrite Hl. cbn [bind]. unfold get_hash. rewrite Hh. cbn [bind].
  destruct (str_eq t (previous_hash block)); cbn [negb]; [|reflexivity].
  destruct proof; cbn [is_valid_proof bind type_name]; try reflexivity.
  destruct (is_valid_hash block s); reflexivity.
Qed.

Lemma add_block_on_reachable_witness :
  exists head head_hash,
    last_block ledger_mined = Return head
    /\ hash head = Some head_hash
    /\ add_block ledger_mined
         (Block_init (JInt 2) (JList []) (JFloat "1600000300.5") (JStr hash1) (JInt 0)) JNull
       = if str_eq head_hash (JStr hash1)
         then Raise (AttributeError "NoneType" "startswith")
         else Return (false, ledger_mined).
Proof.
  exact (add_block_on_reachable ledger_mined
           (Block_init (JInt 2) (JList []) (JFloat "1600000300.5") (JStr hash1) (JInt 0))
           JNull reachable_ledger_mined).
Defined.

(** ** Indices *)

Lemma last_block_inv (self : Blockchain) (last : Block) :
  last_block self = Return last -> exists l, chain self = l ++ [last].
Proof.
  unfold last_block. destruct (rev (chain self)) as [|b l] eqn:E; [discriminate|].
  intros H; inversion H; subst b. exists (rev l).
  rewrite <- (rev_involutive (chain self)), E. reflexivity.
Qed.

(** X3. In a ledger grown from the initial one by [add_new_transaction]
    and this node's own [mine] only, the block at position [i] of the chain
    has index [i]. *)
Theorem self_mined_index (self : Blockchain) :
  self_mined self ->
  forall (i : nat) (b : Block),
    nth_error (chain self) i = Some b -> index b = JInt (Z.of_nat i).
Proof.
  induction 1 as [|self tx _ IH|self self' py fuel now r _ IH Hm].
  - intros [|[|i]] b Hb; cbn in Hb; [inversion Hb; reflexivity | discriminate | discriminate].
  - exact IH.
  - apply mine_cases in Hm
      as [(_ & _ & ->) | (_ & _ & last & lh & ni & nb & proof & Hl & _ & Hi & Hpow & ->)];
      [exact IH|].
    destruct (last_block_inv self last Hl) as (l & Hc).
    intros i b Hb. cbn [chain] in Hb.
    destruct (Nat.lt_ge_cases i (List.length (chain self))) as [Hlt|Hge].
    + rewrite nth_error_app1 in Hb by exact Hlt. exact (IH i b Hb).
    + rewrite nth_error_app2 in Hb by exact Hge.
      destruct (i - List.length (chain self))%nat as [|k] eqn:Ek;
        [|destruct k; discriminate].
      cbn in Hb. inversion Hb; subst b. cbn [index set_hash].
      destruct (proof_of_work_shape _ _ _ _ Hpow) as (m & ->).
      cbn [index set_nonce Block_init].
      assert (Hlast : nth_error (chain self) (List.length l) = Some last).
      { rewrite Hc, nth_error_app2 by lia. now rewrite Nat.sub_diag. }
      rewrite (IH _ _ Hlast) in Hi. cbn in Hi. injection Hi as <-. f_equal.
      rewrite Hc, length_app in Hge, Ek. cbn [List.length] in Hge, Ek. lia.
Qed.

Lemma self_mined_ledger_mined : self_mined ledger_mined.
Proof.
  apply (self_mine ledger_pending ledger_mined no_floats 1 (JFloat "1600000045.5") true).
  - apply self_new_transaction, self_init.
  - exact (mine_ledger_pending no_floats).
Qed.

Lemma self_mined_index_witness : index block1 = JInt (Z.of_nat 1).
Proof. apply (self_mined_index ledger_mined self_mined_ledger_mined 1 block1). reflexivity. Defined.

(** ** Dumps and their reconstruction *)

Lemma Block_of_data_Block_data (b : Block) :
  Block_of_data (Block_data b) = Return (without_hash b).
Proof. destruct b as [i t ts p n [h|]]; reflexivity. Qed.

Lemma item_hash_Block_data (b : Block) (h : string) :
  hash b = Some h -> item (Block_data b) "hash" = Return (JStr h).
Proof. destruct b as [i t ts p n h']; cbn. intros ->. reflexivity. Qed.

Lemma entry_of_Block_data (b : Block) (h : string) :
  hash b = Some h -> entry_of b (Block_data b).
Proof.
  intros H. split; [apply Block_of_data_Block_data|].
  exists h. split; [exact H | now apply item_hash_Block_data].
Qed.

Lemma set_hash_without_hash (b : Block) (h : string) :
  hash b = Some h -> set_hash (without_hash b) h = b.
Proof. destruct b; cbn. now intros ->. Qed.

Lemma Block_of_data_inv (block_data : json) (block : Block) :
  Block_of_data block_data = Return block ->
  exists i t ts p n, block = Block_init i t ts p n.
Proof.
  unfold Block_of_data.
  destruct (item block_data "index") as [i|e]; cbn [bind]; [|discriminate].
  destruct (item block_data "transactions") as [t|e]; cbn [bind]; [|discriminate].
  destruct (item block_data "timestamp") as [ts|e]; cbn [bind]; [|discriminate].
  destruct (item block_data "previous_hash") as [p|e]; cbn [bind]; [|discriminate].
  destruct (item block_data "nonce") as [n|e]; cbn [bind]; [|discriminate].
  intros [= <-]. now exists i, t, ts, p, n.
Qed.

(** An entry that carries a mined block linked to the head is admitted. *)
Lemma mined_accepted (self : Blockchain) (head b : Block) (t : string) (block_data : json) :
  last_block self = Return head ->
  hash head = Some t ->
  previous_hash b = JStr t ->
  mined b ->
  entry_of b block_data ->
  verify_and_add_block self block_data
  = Return (true, mkBlockchain (unconfirmed_transactions self) (chain self ++ [b])).
Proof.
  intros Hl Hh Hp (hb & Hb & Hz & Heq) (Hd & hb' & Hb' & Hi).
  rewrite Hb in Hb'. injection Hb' as <-.
  unfold verify_and_add_block. rewrite Hd, Hi. cbn [bind].
  rewrite (add_block_accepts self head (without_hash b) t hb Hl Hh).
  - now rewrite (set_hash_without_hash b hb Hb).
  - exact Hp.
  - apply is_valid_hash_iff. split; [exact Hz | exact Heq].
Qed.

(** Replaying the dump of linked, mined blocks on a ledger whose head they
    link to admits them all. *)
Lemma replay_honest (bs : list Block) :
  forall (pool : list json) (acc : list Block) (head : Block) (t : string) (idx : nat),
  idx <> 0%nat ->
  last_block (mkBlockchain pool acc) = Return head ->
  hash head = Some t ->
  linked_from t bs -> Forall mined bs ->
  create_chain_from_dump_loop idx (map Block_data bs) (mkBlockchain pool acc)
  = Return (mkBlockchain pool (acc ++ bs)).
Proof.
  induction bs as [|b bs IH]; intros pool acc head t idx Hidx Hl Hh Hlk Hall;
    cbn [map create_chain_from_dump_loop].
  - now rewrite app_nil_r.
  - destruct (Nat.eqb_spec idx 0) as [E|_]; [contradiction|].
    destruct Hlk as (Hp & hb & Hb & Hlk). inversion Hall as [|? ? Hm Hall']; subst.
    assert (Hacc := mined_accepted (mkBlockchain pool acc) head b t (Block_data b)
                      Hl Hh Hp Hm (entry_of_Block_data b hb Hb)).
    unfold verify_and_add_block in Hacc.
    rewrite Block_of_data_Block_data in *. rewrite (item_hash_Block_data b hb Hb) in *.
    cbn [bind] in *. rewrite Hacc. cbn [bind fst snd negb unconfirmed_transactions chain].
    rewrite (IH pool (acc ++ [b]) b hb (S idx) ltac:(lia) (last_block_snoc pool acc b) Hb Hlk Hall').
    now rewrite <- app_assoc.
Qed.

Lemma well_linked_roundtrip (self : Blockchain) :
  well_linked self ->
  create_chain_from_dump (chain_data self) = Return (mkBlockchain [] (chain self)).
Proof.
  intros (rest & Hc & Hall & Hl). unfold create_chain_from_dump, chain_data.
  rewrite Hc. cbn [py_iter bind map create_chain_from_dump_loop Nat.eqb].
  apply (replay_honest rest [] [genesis_block] genesis_block genesis_hash 1);
    [discriminate | reflexivity | exact genesis_hash_eq | exact Hl | exact Hall].
Qed.

(** X4. The dump that [get_chain] serves for a reachable ledger is rebuilt
    by [create_chain_from_dump] into a ledger with the same chain, block for
    block, and an empty pool; [register_with_existing_node] binds
    [blockchain] to it. *)
Theorem create_chain_from_dump_get_chain (self : Blockchain) (peers : list json) :
  reachable self ->
  item (get_chain self peers) "chain" = Return (chain_data self)
  /\ create_chain_from_dump (chain_data self) = Return (mkBlockchain [] (chain self))
  /\ forall blockchain : Global,
       register_with_existing_node blockchain (chain_data self)
       = (Return tt, GBlockchain (mkBlockchain [] (chain self))).
Proof.
  intros Hr. assert (H := well_linked_roundtrip self (reachable_well_linked self Hr)).
  split; [reflexivity|]. split; [exact H|].
  intros blockchain. unfold register_with_existing_node. now rewrite H.
Qed.

Lemma create_chain_from_dump_get_chain_witness :
  item (get_chain ledger_pending []) "chain" = Return (chain_data ledger_pending)
  /\ create_chain_from_dump (chain_data ledger_pending)
     = Return (mkBlockchain [] (chain ledger_pending))
  /\ forall blockchain : Global,
       register_with_existing_node blockchain (chain_data ledger_pending)
       = (Return tt, GBlockchain (mkBlockchain [] (chain ledger_pending))).
Proof.
  apply (create_chain_from_dump_get_chain ledger_pending []).
  apply reach_new_transaction, reach_init.
Defined.

Lemma replay_reachable (ds : list json) :
  forall (idx : nat) (g0 g : Blockchain),
  idx <> 0%nat -> reachable g0 ->
  create_chain_from_dump_loop idx ds g0 = Return g ->
  reachable g
  /\ unconfirmed_transactions g = unconfirmed_transactions g0
  /\ exists bs, chain g = chain g0 ++ bs /\ Forall2 entry_of bs ds.
Proof.
  induction ds as [|d ds IH]; intros idx g0 g Hidx Hr; cbn [create_chain_from_dump_loop].
  - intros H; inversion H; subst. split; [exact Hr|]. split; [reflexivity|].
    exists []. split; [now rewrite app_nil_r | constructor].
  - destruct (Nat.eqb_spec idx 0) as [E|_]; [contradiction|].
    destruct (Block_of_data d) as [block|e] eqn:Hd; cbn [bind]; [|discriminate].
    destruct (item d "hash") as [proof|e] eqn:Hp; cbn [bind]; [|discriminate].
    destruct (add_block g0 block proof) as [[r g1]|e] eqn:Ha;
      cbn [bind fst snd]; [|discriminate].
    destruct r; cbn [negb]; [|discriminate]. intros H.
    destruct (Block_of_data_inv d block Hd) as (i & t & ts & p & n & Hblock).
    assert (Hr1 : reachable g1).
    { rewrite Hblock in Ha. exact (reach_add_block g0 g1 i t ts p n proof true Hr Ha). }
    destruct (IH (S idx) g1 g ltac:(lia) Hr1 H) as (Hg & Hpool & bs & Hchain & Hall).
    apply add_block_cases in Ha as [[E _] | (_ & h & _ & _ & -> & -> & _)]; [discriminate|].
    split; [exact Hg|]. split; [exact Hpool|].
    exists (set_hash block h :: bs). split.
    + rewrite Hchain. cbn [chain]. now rewrite <- app_assoc.
    + constructor; [|exact Hall]. split.
      * rewrite Hd, Hblock. reflexivity.
      * exists h. split; [reflexivity | exact Hp].
Qed.

(** X5. Whenever [create_chain_from_dump] returns a ledger, that ledger is
    reachable (so it has every invariant of reachable ledgers), its pool is
    empty, and its chain is the local genesis block followed by exactly the
    entries of the dump after the first, field for field: the first entry is
    never looked at. *)
Theorem create_chain_from_dump_result (chain_dump : json) (generated : Blockchain) :
  create_chain_from_dump chain_dump = Return generated ->
  reachable generated
  /\ unconfirmed_transactions generated = []
  /\ exists entries blocks,
       py_iter chain_dump = Return entries
       /\ chain generated = genesis_block :: blocks
       /\ Forall2 entry_of blocks (tl entries).
Proof.
  unfold create_chain_from_dump.
  destruct (py_iter chain_dump) as [entries|e]; cbn [bind]; [|discriminate].
  destruct entries as [|first ds]; cbn [create_chain_from_dump_loop Nat.eqb tl].
  - intros H; inversion H; subst. split; [exact reach_init|]. split; [reflexivity|].
    exists [], []. split; [reflexivity|]. split; [reflexivity | constructor].
  - intros H.
    destruct (replay_reachable ds 1 (create_genesis_block Blockchain_init) generated
                ltac:(discriminate) reach_init H) as (Hr & Hpool & bs & Hc & Hall).
    split; [exact Hr|]. split; [exact Hpool|].
    exists (first :: ds), bs. split; [reflexivity|]. split; [exact Hc | exact Hall].
Qed.

Lemma create_chain_from_dump_result_witness :
  reachable ledger_mined
  /\ unconfirmed_transactions ledger_mined = []
  /\ exists entries blocks,
       py_iter (chain_data ledger_mined) = Return entries
       /\ chain ledger_mined = genesis_block :: blocks
       /\ Forall2 entry_of blocks (tl entries).
Proof.
  exact (create_chain_from_dump_result (chain_data ledger_mined) ledger_mined
           create_chain_from_dump_ledger_mined).
Defined.

(** X6. An entry that is a dict with the five fields of a block and without
    the key [hash], reached after the entries before it were admitted, makes
    [create_chain_from_dump] raise [KeyError]; [verify_and_add_block] raises
    it as well, whatever the ledger. *)
Theorem missing_hash_key_error (first : json) (bad : list (string * json))
    (before after : list json) (generated : Blockchain) (block : Block) :
  create_chain_from_dump (JList (first :: before)) = Return generated ->
  Block_of_data (JDict bad) = Return block ->
  dict_has bad "hash" = false ->
  create_chain_from_dump (JList (first :: before ++ JDict bad :: after))
  = Raise (KeyError "hash")
  /\ forall self : Blockchain,
       verify_and_add_block self (JDict bad) = Raise (KeyError "hash").
Proof.
  intros Hpre Hblock Hbad.
  assert (Hi : item (JDict bad) "hash" = Raise (KeyError "hash")).
  { cbn [item]. now rewrite Hbad. }
  split.
  - unfold create_chain_from_dump in *. cbn [py_iter bind] in *.
    change (first :: before ++ JDict bad :: after)
      with ((first :: before) ++ JDict bad :: after).
    rewrite create_chain_from_dump_loop_app, Hpre. cbn [bind create_chain_from_dump_loop].
    cbn [Nat.add List.length Nat.eqb]. rewrite Hblock, Hi. reflexivity.
  - intros self. unfold verify_and_add_block. rewrite Hblock, Hi. reflexivity.
Qed.

Lemma missing_hash_key_error_witness :
  create_chain_from_dump
    (JList (Block_data genesis_block :: []
            ++ JDict [("index", JInt 1); ("transactions", JList []); ("timestamp", JInt 0);
                      ("previous_hash", JStr genesis_hash); ("nonce", JInt 0)] :: []))
  = Raise (KeyError "hash")
  /\ forall self : Blockchain,
       verify_and_add_block self
         (JDict [("index", JInt 1); ("transactions", JList []); ("timestamp", JInt 0);
                 ("previous_hash", JStr genesis_hash); ("nonce", JInt 0)])
       = Raise (KeyError "hash").
Proof.
  apply (missing_hash_key_error (Block_data genesis_block) _ [] [] blockchain0
           (Block_init (JInt 1) (JList []) (JInt 0) (JStr genesis_hash) (JInt 0)));
    reflexivity.
Defined.

(** X7. Tampering with the stored hash or with the link of a block is
    always detected. Take the dump of a reachable ledger up to some block
    after the genesis block, and put in that block's place an entry that
    either carries another [previous_hash], or carries the same content with
    another str as its [hash]: whatever follows, [create_chain_from_dump]
    raises [Exception("The chain dump is tampered!!")]. *)
Theorem tampered_entry_detected (self : Blockchain) (before after : list Block) (b : Block)
    (d : json) (block : Block) (proof : json) (rest : list json) :
  reachable self ->
  chain self = before ++ b :: after ->
  before <> [] ->
  Block_of_data d = Return block ->
  item d "hash" = Return proof ->
  previous_hash block <> previous_hash b
  \/ (block = without_hash b /\ exists h', proof = JStr h' /\ hash b <> Some h') ->
  create_chain_from_dump (JList (map Block_data before ++ d :: rest))
  = Raise (Exception "The chain dump is tampered!!").
Proof.
  intros Hr Hc Hne Hd Hproof Hcase.
  destruct (reachable_well_linked self Hr) as (rest0 & Hc0 & Hall & Hl).
  destruct before as [|g before']; [contradiction|].
  rewrite Hc in Hc0. cbn [app] in Hc0. inversion Hc0; subst g rest0. clear Hc0.
  apply linked_from_app in Hl as (Hl1 & t & Ht & (Hp & hb & Hb & _)).
  apply Forall_app in Hall as (Hall1 & Hall2). assert (Hm := Forall_inv Hall2).
  unfold create_chain_from_dump.
  cbn [py_iter bind map app create_chain_from_dump_loop Nat.eqb].
  rewrite create_chain_from_dump_loop_app.
  change (create_genesis_block Blockchain_init) with (mkBlockchain [] [genesis_block]).
  rewrite (replay_honest before' [] [genesis_block] genesis_block genesis_hash 1
             ltac:(discriminate) eq_refl genesis_hash_eq Hl1 Hall1).
  cbn [bind create_chain_from_dump_loop Nat.add Nat.eqb].
  rewrite Hd, Hproof. cbn [bind app].
  destruct (last_block_tip before' [] genesis_block genesis_hash genesis_hash_eq Hl1)
    as (head & t' & Hhead & Hh & Ht').
  rewrite Ht in Ht'. inversion Ht'; subst t'.
  unfold add_block. rewrite Hhead. cbn [bind]. unfold get_hash. rewrite Hh. cbn [bind].
  destruct (str_eq t (previous_hash block)) eqn:E; cbn [negb]; [|reflexivity].
  apply str_eq_true in E.
  destruct Hcase as [Hlink | (Hsame & h' & -> & Hhash)].
  - exfalso. apply Hlink. congruence.
  - cbn [is_valid_proof bind].
    destruct (is_valid_hash block h') eqn:Hv; cbn [negb]; [|reflexivity].
    exfalso. rewrite Hsame in Hv. apply is_valid_hash_iff in Hv as [_ Hv].
    destruct Hm as (hb' & Hb' & _ & Heq). apply Hhash. congruence.
Qed.

Lemma tampered_entry_detected_witness :
  create_chain_from_dump
    (JList (map Block_data [genesis_block]
            ++ JDict [("index", JInt 1); ("transactions", JList [tx1]);
                      ("timestamp", JFloat "1600000045.5");
                      ("previous_hash", JStr genesis_hash); ("nonce", JInt 1);
                      ("hash", JStr stray_hash)] :: []))
  = Raise (Exception "The chain dump is tampered!!").
Proof.
  apply (tampered_entry_detected ledger_mined [genesis_block] [] block1 _
           (Block_init (JInt 1) (JList [tx1]) (JFloat "1600000045.5") (JStr genesis_hash)
                       (JInt 1))
           (JStr stray_hash) []).
  - exact reachable_ledger_mined.
  - reflexivity.
  - discriminate.
  - reflexivity.
  - reflexivity.
  - right. split; [reflexivity|]. exists stray_hash. split; [reflexivity|].
    cbn. intros H. discriminate H.
Defined.

(** ** Chain validation and consensus, as they run *)

(** X8. [check_chain_validity] returns only on the empty chain, and then
    [True]; on every other input it raises [AttributeError]. It never
    returns [False]. *)
Theorem check_chain_validity_outcome (chain : list PyObj) :
  (chain = [] /\ check_chain_validity chain = Return true)
  \/ (chain <> [] /\ exists owner attr,
        check_chain_validity chain = Raise (AttributeError owner attr)).
Proof.
  destruct chain as [|x chain].
  - left. now split.
  - right. split; [discriminate|]. exact (check_chain_validity_nonempty "0" x chain).
Qed.

(** X9. [consensus] never replaces the ledger and never returns [True]:
    whatever JSON values the peers answer, it returns [False] with
    [blockchain] bound as before, or it raises, leaving [blockchain] bound
    as before: [KeyError] on an answer without [length] or without [chain],
    [TypeError] on an answer that is no dict, on a [length] that is no
    number and on a [chain] that cannot be iterated, [AttributeError] at
    [block.hash] on the first entry of a chain (and at [blockchain.chain]
    when [blockchain] is bound to no [Blockchain]). *)
Theorem consensus_outcome (py : Floats) (blockchain : Global) (peers : list json) :
  consensus py blockchain peers = Return (false, blockchain)
  \/ exists e, consensus py blockchain peers = Raise e
               /\ (e = KeyError "length" \/ e = KeyError "chain" \/ e = TypeError
                   \/ (exists owner, e = AttributeError owner "hash")
                   \/ (exists chain, blockchain = GJson chain
                                     /\ e = AttributeError (type_name chain) "chain")).
Proof.
  destruct blockchain as [self|chain].
  - destruct (consensus_never_replaces py self peers) as [H | (e & H & He)]; [now left|].
    right. exists e. split; [exact H|]. unfold consensus_failure in He. tauto.
  - right. eexists. split; [reflexivity|]. do 4 right. now exists chain.
Qed.

(** Two answers on which [consensus] raises before any chain is looked at:
    a [length] that is a str, and no [length] at all. *)
Example consensus_str_length :
  forall py : Floats,
    consensus py (GBlockchain blockchain0)
      [JDict [("length", JStr "9"); ("chain", JList []); ("peers", JList [])]]
    = Raise TypeError.
Proof. intros py. reflexivity. Qed.

Example consensus_no_length :
  forall py : Floats,
    consensus py (GBlockchain blockchain0)
      [JDict [("chain", chain_data ledger_mined); ("peers", JList [])]]
    = Raise (KeyError "length").
Proof. intros py. reflexivity. Qed.

Lemma reports_get_chain (self : Blockchain) (peers : list json) :
  reports (get_chain self peers) (Z.of_nat (List.length (chain self))).
Proof. split; [reflexivity|]. now exists (chain_data self). Qed.

Lemma consensus_loop_skips (py : Floats) (peers : list json) :
  forall (longest_chain : option json) (current_len : Z),
  Forall (fun p => exists n, reports p n /\ n <= current_len) peers ->
  consensus_loop py peers longest_chain (NInt current_len) = Return longest_chain.
Proof.
  induction peers as [|p peers IH]; intros lc cl H; cbn [consensus_loop]; [reflexivity|].
  inversion H as [|? ? (n & (Hlen & c & Hc) & Hle) Hrest]; subst.
  rewrite Hlen, Hc. cbn [bind number_of num_gt].
  destruct (Z.gtb_spec n cl) as [Hgt|_]; [lia | now apply IH].
Qed.

(** X10. When no peer reports a length above that of the local chain,
    [consensus] returns [False] and leaves the ledger, without looking at
    any of the chains received. *)
Theorem consensus_no_longer_peer (py : Floats) (self : Blockchain) (peers : list json) :
  Forall (fun p => exists n, reports p n /\ n <= Z.of_nat (List.length (chain self))) peers ->
  consensus py (GBlockchain self) peers = Return (false, GBlockchain self).
Proof.
  intros H. unfold consensus. now rewrite (consensus_loop_skips py peers None _ H).
Qed.

Lemma consensus_no_longer_peer_witness :
  consensus no_floats (GBlockchain ledger_mined)
    [get_chain blockchain0 []; get_chain ledger_mined []]
  = Return (false, GBlockchain ledger_mined).
Proof.
  apply (consensus_no_longer_peer no_floats ledger_mined
           [get_chain blockchain0 []; get_chain ledger_mined []]).
  constructor; [|constructor; [|constructor]].
  - exists 1. split; [exact (reports_get_chain blockchain0 []) | cbn; lia].
  - exists 2. split; [exact (reports_get_chain ledger_mined []) | cbn; lia].
Defined.

Lemma consensus_loop_stops (py : Floats) (before after : list json) (p chain x : json)
    (xs : list json) (n : Z) (longest_chain : option json) (current_len : Z) :
  Forall (fun q => exists m, reports q m /\ m <= current_len) before ->
  item p "length" = Return (JInt n) ->
  n > current_len ->
  item p "chain" = Return chain ->
  py_iter chain = Return (x :: xs) ->
  consensus_loop py (before ++ p :: after) longest_chain (NInt current_len)
  = Raise (AttributeError (type_name x) "hash").
Proof.
  intros Hb Hlen Hgt Hchain Hiter. induction before as [|q before IH]; cbn [app consensus_loop].
  - rewrite Hlen, Hchain. cbn [bind number_of num_gt].
    destruct (Z.gtb_spec n current_len) as [_|Hle]; [|lia].
    unfold check_chain_validity_json. rewrite Hiter. reflexivity.
  - inversion Hb as [|? ? (m & (Hm & c & Hc) & Hle) Hrest]; subst.
    rewrite Hm, Hc. cbn [bind number_of num_gt].
    destruct (Z.gtb_spec m current_len) as [Hgt'|_]; [lia | now apply IH].
Qed.

(** X11. When every peer asked before it reports a length that is an int
    not above the length of the local chain, a peer that reports an int
    above that length and sends a chain that yields at least one entry makes
    [consensus] raise [AttributeError] at [block.hash] on the first entry
    ('dict' object has no attribute 'hash', for a chain of block dicts); the
    peers after it are not asked and the ledger stays as it was. So a node
    never adopts the chain of such a peer. *)
Theorem consensus_longer_peer_raises (py : Floats) (self : Blockchain)
    (before after : list json) (p sent x : json) (xs : list json) (n : Z) :
  Forall (fun q => exists m, reports q m /\ m <= Z.of_nat (List.length (chain self)))
         before ->
  item p "length" = Return (JInt n) ->
  n > Z.of_nat (List.length (chain self)) ->
  item p "chain" = Return sent ->
  py_iter sent = Return (x :: xs) ->
  consensus py (GBlockchain self) (before ++ p :: after)
  = Raise (AttributeError (type_name x) "hash").
Proof.
  intros Hb Hlen Hgt Hchain Hiter. unfold consensus.
  now rewrite (consensus_loop_stops py before after p sent x xs n None _
                 Hb Hlen Hgt Hchain Hiter).
Qed.

Lemma consensus_longer_peer_raises_witness :
  consensus no_floats (GBlockchain blockchain0)
    ([get_chain blockchain0 []] ++ get_chain ledger_mined [] :: [])
  = Raise (AttributeError "dict" "hash").
Proof.
  apply (consensus_longer_peer_raises no_floats blockchain0 [get_chain blockchain0 []] []
           (get_chain ledger_mined []) (chain_data ledger_mined)
           (Block_data genesis_block) [Block_data block1] 2).
  - constructor; [|constructor].
    exists 1. split; [exact (reports_get_chain blockchain0 []) | cbn; lia].
  - reflexivity.
  - cbn. lia.
  - reflexivity.
  - reflexivity.
Defined.

(** Without the condition on the peers asked before, the peer that is
    ahead may go unnoticed: an earlier answer with a larger [length] and an
    empty chain raises the bar, and [consensus] returns [False]. *)
Example consensus_after_empty_answer :
  forall py : Floats,
    consensus py (GBlockchain blockchain0)
      [ JDict [("length", JInt 100); ("chain", JList []); ("peers", JList [])];
        get_chain ledger_mined [] ]
    = Return (false, GBlockchain blockchain0).
Proof. intros py. reflexivity. Qed.

(** ** The request handlers *)

Lemma dict_get_set (items : list (string * json)) (key key' : string) (value : json) :
  dict_get (dict_set items key value) key'
  = if String.eqb key key' then value else dict_get items key'.
Proof.
  induction items as [|[k v] items IH]; cbn [dict_set dict_get].
  - destruct (String.eqb key key'); reflexivity.
  - destruct (String.eqb_spec k key) as [->|Hk]; cbn [dict_get].
    + destruct (String.eqb key key'); reflexivity.
    + destruct (String.eqb_spec k key') as [->|Hk'].
      * destruct (String.eqb_spec key key') as [->|_]; [contradiction | reflexivity].
      * exact IH.
Qed.

(** X12. [new_transaction] answers 201 exactly when [author] and [content]
    are both present with a true value, and 404 otherwise, leaving the
    ledger as it was. On 201 the pool grows at its end by the submitted
    dict, in which [timestamp] is the time of the server (a timestamp sent
    by the client is overwritten) and every other key is as submitted; the
    chain is untouched. A body that is not a dict raises
    [AttributeError]. *)
Theorem new_transaction_outcome (now : json) (self : Blockchain) (items : list (string * json)) :
  new_transaction now self (JDict items)
  = Return (if truthy (dict_get items "author") && truthy (dict_get items "content")
            then (("Success", 201),
                  mkBlockchain (unconfirmed_transactions self
                                ++ [JDict (dict_set items "timestamp" now)])
                               (chain self))
            else (("Invalid transaction data", 404), self))
  /\ dict_get (dict_set items "timestamp" now) "timestamp" = now
  /\ (forall key, key <> "timestamp" ->
        dict_get (dict_set items "timestamp" now) key = dict_get items key)
  /\ (forall tx_data, (forall d, tx_data <> JDict d) ->
        new_transaction now self tx_data = Raise (AttributeError (type_name tx_data) "get")).
Proof.
  split; [|split; [|split]].
  - unfold new_transaction. cbn [has_required_fields].
    destruct (truthy (dict_get items "author")); cbn [negb andb]; [|reflexivity].
    destruct (truthy (dict_get items "content")); reflexivity.
  - rewrite dict_get_set. reflexivity.
  - intros key Hk. rewrite dict_get_set.
    destruct (String.eqb_spec "timestamp" key) as [E|_]; [congruence | reflexivity].
  - intros tx_data Hnd. destruct tx_data; try reflexivity. now elim (Hnd items0).
Qed.

Lemma last_block_same_chain (self other : Blockchain) :
  chain other = chain self -> last_block other = last_block self.
Proof. unfold last_block. now intros ->. Qed.

(** X13. A block that [mine] has just added is accepted by every node
    whose chain is the one the miner had before: given the block's
    [__dict__] as announced, [verify_and_add_block] returns [True] there and
    extends that chain by the very same block, leaving that node's pool. *)
Theorem mined_block_accepted_by_peer (py : Floats) (fuel : nat) (now : json)
    (self self' other : Blockchain) :
  mine py fuel now self = Some (Return (true, self')) ->
  chain other = chain self ->
  exists b, chain self' = chain self ++ [b]
            /\ verify_and_add_block other (Block_data b)
               = Return (true, mkBlockchain (unconfirmed_transactions other)
                                            (chain other ++ [b])).
Proof.
  intros Hm Hc.
  apply mine_cases in Hm
    as [(_ & E & _) | (_ & _ & last & lh & ni & nb & proof & Hl & Hh & Hi & Hpow & ->)];
    [discriminate|].
  exists (set_hash nb proof). split; [reflexivity|].
  destruct (proof_of_work_shape _ _ _ _ Hpow) as (m & Hshape).
  unfold verify_and_add_block. rewrite Block_of_data_Block_data.
  rewrite (item_hash_Block_data (set_hash nb proof) proof eq_refl). cbn [bind].
  assert (Hnb : without_hash (set_hash nb proof) = nb) by (rewrite Hshape; reflexivity).
  rewrite Hnb.
  apply (add_block_accepts other last nb lh proof).
  - now rewrite (last_block_same_chain self other Hc).
  - exact Hh.
  - rewrite Hshape. reflexivity.
  - exact (proof_of_work_sound _ _ _ _ Hpow).
Qed.

Lemma mined_block_accepted_by_peer_witness :
  exists b, chain ledger_mined = chain ledger_pending ++ [b]
            /\ verify_and_add_block blockchain0 (Block_data b)
               = Return (true, mkBlockchain (unconfirmed_transactions blockchain0)
                                            (chain blockchain0 ++ [b])).
Proof.
  apply (mined_block_accepted_by_peer no_floats 1 (JFloat "1600000045.5") ledger_pending
           ledger_mined blockchain0).
  - exact (mine_ledger_pending no_floats).
  - reflexivity.
Defined.

Lemma Forall_map_answer (P : json -> Prop) (peers : list Peer) :
  Forall (fun peer => P (answer peer)) peers -> Forall P (map answer peers).
Proof. intros H. apply Forall_map. exact H. Qed.

(** What the handler answers once [mine] has returned [True] with the chain
    grown by [b], when no peer reports a length above that of the chain. *)
Lemma mine_unconfirmed_transactions_after_mine (py : Floats) (fuel : nat) (now : json)
    (self : Blockchain) (b : Block) (peers : list Peer) :
  mine py fuel now self = Some (Return (true, mkBlockchain [] (chain self ++ [b]))) ->
  Forall (fun peer => exists m, reports (answer peer) m
                                /\ m <= Z.of_nat (List.length (chain self)) + 1) peers ->
  mine_unconfirmed_transactions py fuel now self peers
  = Some (Return (Format "Block #{} is mined." (index b),
                  map (fun peer => (address peer +++ "add_block", block_string b)) peers),
          GBlockchain (mkBlockchain [] (chain self ++ [b]))).
Proof.
  intros Hm Hpeers. unfold mine_unconfirmed_transactions. rewrite Hm. cbn [negb].
  unfold consensus. cbn [chain].
  assert (Hlen : Z.of_nat (List.length (chain self ++ [b]))
                 = Z.of_nat (List.length (chain self)) + 1)
    by (rewrite length_app; cbn [List.length]; lia).
  rewrite Hlen.
  rewrite (consensus_loop_skips py (map answer peers) None _ (Forall_map_answer _ _ Hpeers)).
  cbn [bind]. rewrite last_block_snoc. cbn [chain]. now rewrite Nat.eqb_refl.
Qed.

(** X14. [mine_unconfirmed_transactions] on a ledger whose head carries a
    hash and an index to which 1 can be added. On an empty pool the handler
    answers "No txs to mine", posts nothing and changes nothing. On a
    non-empty pool, when some nonce is admissible for the candidate and
    every peer reports an int length not above that of the chain after
    mining, the search ends and the handler returns: the chain has grown by
    one block, which carries the index after that of the head, links to the
    head and holds the pool; the pool is empty; the answer names the index
    of that block; and that block, serialised with sorted keys, is posted
    once to each peer at its address followed by [add_block]. *)
Theorem mine_unconfirmed_transactions_outcome (py : Floats) (now : json)
    (self : Blockchain) (head : Block) (head_hash : string) (next_index : json)
    (peers : list Peer) :
  last_block self = Return head ->
  hash head = Some head_hash ->
  add_one py (index head) = Return next_index ->
  (pending self = false ->
     forall fuel,
       mine_unconfirmed_transactions py fuel now self peers
       = Some (Return (Text "No txs to mine", []), GBlockchain self))
  /\ (pending self = true ->
      (exists n, 0 <= n
         /\ leading_zeros (Z.to_nat difficulty)
              (compute_hash (set_nonce (Block_init next_index
                                          (JList (unconfirmed_transactions self)) now
                                          (JStr head_hash) (JInt 0)) n))) ->
      Forall (fun peer => exists m, reports (answer peer) m
                                    /\ m <= Z.of_nat (List.length (chain self)) + 1) peers ->
      exists (b : Block) (fuel : nat),
        index b = next_index
        /\ previous_hash b = JStr head_hash
        /\ transactions b = JList (unconfirmed_transactions self)
        /\ forall fuel', (fuel <= fuel')%nat ->
             mine_unconfirmed_transactions py fuel' now self peers
             = Some (Return (Format "Block #{} is mined." next_index,
                             map (fun peer => (address peer +++ "add_block",
                                               block_string b)) peers),
                     GBlockchain (mkBlockchain [] (chain self ++ [b])))).
Proof.
  intros Hl Hh Hi. split.
  - intros Hp fuel. unfold mine_unconfirmed_transactions, mine, pending in *.
    destruct (unconfirmed_transactions self); [reflexivity | discriminate].
  - intros Hp (n & Hn & Hadm) Hpeers. apply meets_difficulty_iff in Hadm.
    destruct (proof_of_work_total _ (ex_intro _ n (conj Hn Hadm)))
      as (m & _ & _ & Hrun & _).
    eexists _, m. split; [|split; [|split]].
    4:{ intros fuel' Hfuel.
        rewrite (mine_unconfirmed_transactions_after_mine py fuel' now self _ peers
                   (proj2 (mine_after_search py self head head_hash next_index now fuel' _ _
                                             Hl Hh Hi Hp (Hrun fuel' Hfuel)))
                   Hpeers).
        reflexivity. }
    all: reflexivity.
Qed.

Lemma mine_unconfirmed_transactions_outcome_witness :
  exists (b : Block) (fuel : nat),
    index b = JInt 1
    /\ previous_hash b = JStr genesis_hash
    /\ transactions b = JList (unconfirmed_transactions ledger_pending)
    /\ forall fuel', (fuel <= fuel')%nat ->
         mine_unconfirmed_transactions no_floats fuel' (JFloat "1600000045.5") ledger_pending
           [mkPeer "http://127.0.0.1:8001/" (get_chain blockchain0 [])]
         = Some (Return (Format "Block #{} is mined." (JInt 1),
                         map (fun peer => (address peer +++ "add_block", block_string b))
                             [mkPeer "http://127.0.0.1:8001/" (get_chain blockchain0 [])]),
                 GBlockchain (mkBlockchain [] (chain ledger_pending ++ [b]))).
Proof.
  apply (proj2 (mine_unconfirmed_transactions_outcome no_floats (JFloat "1600000045.5")
                  ledger_pending genesis_block genesis_hash (JInt 1)
                  [mkPeer "http://127.0.0.1:8001/" (get_chain blockchain0 [])]
                  eq_refl genesis_hash_eq eq_refl)).
  - reflexivity.
  - exists 1. split; [lia|]. apply meets_difficulty_iff. vm_compute. reflexivity.
  - constructor; [|constructor].
    exists 1. split; [exact (reports_get_chain blockchain0 []) | cbn; lia].
Defined.

(** X15. When a peer is ahead (the first peer that reports a length above
    that of the chain after mining sends a non-empty chain),
    [mine_unconfirmed_transactions] raises [AttributeError] after [mine] has
    returned [True]: the new block is in the local chain and the pool is
    empty, but the block is posted to no peer. *)
Theorem mine_unconfirmed_transactions_raises (py : Floats) (fuel : nat) (now : json)
    (self self' : Blockchain) (before after : list Peer) (p : Peer)
    (sent x : json) (xs : list json) (n : Z) :
  mine py fuel now self = Some (Return (true, self')) ->
  Forall (fun q => exists m, reports (answer q) m
                             /\ m <= Z.of_nat (List.length (chain self'))) before ->
  item (answer p) "length" = Return (JInt n) ->
  n > Z.of_nat (List.length (chain self')) ->
  item (answer p) "chain" = Return sent ->
  py_iter sent = Return (x :: xs) ->
  mine_unconfirmed_transactions py fuel now self (before ++ p :: after)
  = Some (Raise (AttributeError (type_name x) "hash"), GBlockchain self')
  /\ unconfirmed_transactions self' = []
  /\ exists b, chain self' = chain self ++ [b].
Proof.
  intros Hm Hb Hlen Hgt Hsent Hiter. unfold mine_unconfirmed_transactions. rewrite Hm.
  cbn [negb]. rewrite map_app. cbn [map].
  unfold consensus.
  rewrite (consensus_loop_stops py (map answer before) (map answer after) (answer p)
             sent x xs n None _ (Forall_map_answer _ _ Hb) Hlen Hgt Hsent Hiter).
  cbn [bind].
  split; [reflexivity|].
  apply mine_cases in Hm
    as [(_ & E & _) | (_ & _ & last & lh & ni & nb & proof & _ & _ & _ & _ & ->)];
    [discriminate|].
  split; [reflexivity|]. now exists (set_hash nb proof).
Qed.

Lemma mine_unconfirmed_transactions_raises_witness :
  mine_unconfirmed_transactions no_floats 1 (JFloat "1600000045.5") ledger_pending
    ([mkPeer "http://127.0.0.1:8001/" (get_chain blockchain0 [])]
     ++ mkPeer "http://127.0.0.1:8002/"
               (JDict [("length", JInt 3); ("chain", chain_data ledger_mined);
                       ("peers", JList [])]) :: [])
  = Some (Raise (AttributeError "dict" "hash"),
          GBlockchain ledger_mined)
  /\ unconfirmed_transactions ledger_mined = []
  /\ exists b, chain ledger_mined = chain ledger_pending ++ [b].
Proof.
  apply (mine_unconfirmed_transactions_raises no_floats 1 (JFloat "1600000045.5")
           ledger_pending ledger_mined
           [mkPeer "http://127.0.0.1:8001/" (get_chain blockchain0 [])] []
           (mkPeer "http://127.0.0.1:8002/"
                   (JDict [("length", JInt 3); ("chain", chain_data ledger_mined);
                           ("peers", JList [])]))
           (chain_data ledger_mined) (Block_data genesis_block) [Block_data block1] 3).
  - exact (mine_ledger_pending no_floats).
  - constructor; [|constructor].
    exists 1. split; [exact (reports_get_chain blockchain0 []) | cbn; lia].
  - reflexivity.
  - cbn. lia.
  - reflexivity.
  - reflexivity.
Defined.

(** ** Sorted keys *)

Lemma string_compare_lt_trans (a : string) :
  forall b c, String.compare a b = Lt -> String.compare b c = Lt -> String.compare a c = Lt.
Proof.
  induction a as [|x a IH]; intros [|y b] [|z c]; cbn [String.compare];
    try discriminate; try reflexivity.
  unfold Ascii.compare.
  destruct (N.compare_spec (N_of_ascii x) (N_of_ascii y)) as [Exy|Lxy|Gxy];
    try discriminate;
    destruct (N.compare_spec (N_of_ascii y) (N_of_ascii z)) as [Eyz|Lyz|Gyz];
    try discriminate; intros H1 H2.
  - rewrite Exy, Eyz, N.compare_refl. exact (IH b c H1 H2).
  - rewrite Exy, (proj2 (N.compare_lt_iff _ _) Lyz). reflexivity.
  - rewrite <- Eyz, (proj2 (N.compare_lt_iff _ _) Lxy). reflexivity.
  - rewrite (proj2 (N.compare_lt_iff _ _) (N.lt_trans _ _ _ Lxy Lyz)). reflexivity.
Qed.

Lemma string_leb_trans (a b c : string) :
  String.leb a b = true -> String.leb b c = true -> String.leb a c = true.
Proof.
  unfold String.leb.
  destruct (String.compare a b) eqn:Eab; try discriminate;
    destruct (String.compare b c) eqn:Ebc; try discriminate; intros _ _.
  - assert (E := String.compare_eq_iff _ _ Eab). subst b. now rewrite Ebc.
  - assert (E := String.compare_eq_iff _ _ Eab). subst b. now rewrite Ebc.
  - assert (E := String.compare_eq_iff _ _ Ebc). subst c. now rewrite Eab.
  - now rewrite (string_compare_lt_trans a b c Eab Ebc).
Qed.

Lemma insert_item_comm {A : Type} (a b : string * A) (l : list (string * A)) :
  fst a <> fst b ->
  insert_item a (insert_item b l) = insert_item b (insert_item a l).
Proof.
  intros Hne.
  assert (Hab : String.leb (fst a) (fst b) = negb (String.leb (fst b) (fst a))).
  { destruct (String.leb (fst a) (fst b)) eqn:E1, (String.leb (fst b) (fst a)) eqn:E2;
      try reflexivity.
    - elim Hne. now apply String.leb_antisym.
    - destruct (String.leb_total (fst a) (fst b)); congruence. }
  induction l as [|c l IH]; cbn [insert_item].
  - rewrite Hab. destruct (String.leb (fst b) (fst a)); reflexivity.
  - destruct (String.leb (fst a) (fst c)) eqn:Eac, (String.leb (fst b) (fst c)) eqn:Ebc;
      cbn [insert_item]; rewrite ?Eac, ?Ebc.
    + rewrite Hab. destruct (String.leb (fst b) (fst a)); reflexivity.
    + destruct (String.leb (fst b) (fst a)) eqn:Eba; [|reflexivity].
      rewrite (string_leb_trans _ _ _ Eba Eac) in Ebc. discriminate.
    + destruct (String.leb (fst a) (fst b)) eqn:Eab; [|reflexivity].
      rewrite (string_leb_trans _ _ _ Eab Ebc) in Eac. discriminate.
    + now rewrite IH.
Qed.

Lemma sort_items_perm {A : Type} (l1 l2 : list (string * A)) :
  Permutation.Permutation l1 l2 -> NoDup (map fst l1) -> sort_items l1 = sort_items l2.
Proof.
  induction 1 as [|x l l' _ IH|x y l|l l' l'' H1 IH1 H2 IH2]; intros Hnd.
  - reflexivity.
  - cbn [sort_items fold_right]. fold (sort_items l) (sort_items l').
    rewrite IH; [reflexivity|]. now inversion Hnd.
  - cbn [sort_items fold_right]. fold (sort_items l).
    apply insert_item_comm. cbn [map] in Hnd. inversion Hnd as [|? ? Hin _]; subst.
    intros E. apply Hin. left. now symmetry.
  - rewrite IH1 by exact Hnd. apply IH2.
    apply (Permutation.Permutation_NoDup (Permutation.Permutation_map fst H1) Hnd).
Qed.

Lemma dumps_list (l : list json) :
  dumps (JList l) = "[" +++ join ", " (map dumps l) +++ "]".
Proof. reflexivity. Qed.

Lemma dumps_dict_perm (items1 items2 : list (string * json)) :
  NoDup (map fst items1) -> Permutation items1 items2 ->
  dumps (JDict items1) = dumps (JDict items2).
Proof.
  intros Hnd Hp. rewrite !dumps_dict. do 4 f_equal.
  apply sort_items_perm.
  - apply Permutation_map. exact Hp.
  - rewrite map_map. cbn [fst]. exact Hnd.
Qed.

(** X16. The digest of a block does not depend on the order of the keys in
    a transaction: replacing a transaction dict by one with the same items
    in another order leaves [compute_hash] unchanged. *)
Theorem compute_hash_key_order (b : Block) (before after : list json)
    (items1 items2 : list (string * json)) :
  NoDup (map fst items1) ->
  Permutation items1 items2 ->
  transactions b = JList (before ++ JDict items1 :: after) ->
  compute_hash b
  = compute_hash (mkBlock (index b) (JList (before ++ JDict items2 :: after)) (timestamp b)
                          (previous_hash b) (nonce b) (hash b)).
Proof.
  intros Hnd Hp Htx. unfold compute_hash, block_string. f_equal.
  rewrite !dumps_dict. unfold Block_dict. cbn [index transactions timestamp previous_hash nonce hash].
  rewrite Htx.
  assert (E : dumps (JList (before ++ JDict items1 :: after))
              = dumps (JList (before ++ JDict items2 :: after))).
  { rewrite !dumps_list, !map_app. cbn [map].
    now rewrite (dumps_dict_perm items1 items2 Hnd Hp). }
  destruct (hash b); cbn [map app fst snd]; now rewrite E.
Qed.

Lemma compute_hash_key_order_witness :
  compute_hash (Block_init (JInt 1)
                  (JList ([] ++ JDict [("author", JStr "a"); ("content", JStr "hi")] :: []))
                  (JInt 0) (JStr genesis_hash) (JInt 0))
  = compute_hash (mkBlock (JInt 1)
                    (JList ([] ++ JDict [("content", JStr "hi"); ("author", JStr "a")] :: []))
                    (JInt 0) (JStr genesis_hash) (JInt 0) None).
Proof.
  apply (compute_hash_key_order
           (Block_init (JInt 1)
              (JList ([] ++ JDict [("author", JStr "a"); ("content", JStr "hi")] :: []))
              (JInt 0) (JStr genesis_hash) (JInt 0))
           [] [] [("author", JStr "a"); ("content", JStr "hi")]
           [("content", JStr "hi"); ("author", JStr "a")]).
  - repeat constructor; cbn; intuition discriminate.
  - apply perm_swap.
  - reflexivity.
Defined.

(** ** The length of a digest *)

Lemma round_length (st : list Z) (kw : Z * Z) :
  List.length st = 8%nat -> List.length (SHA256.round st kw) = 8%nat.
Proof.
  intros H. do 9 (destruct st as [|? st]; try discriminate H). reflexivity.
Qed.

Lemma fold_round_length (kws : list (Z * Z)) :
  forall st, List.length st = 8%nat ->
             List.length (fold_left SHA256.round kws st) = 8%nat.
Proof.
  induction kws as [|kw kws IH]; intros st H; cbn [fold_left]; [exact H|].
  apply IH, round_length, H.
Qed.

Lemma compress_length (st block : list Z) :
  List.length st = 8%nat -> List.length (SHA256.compress st block) = 8%nat.
Proof.
  intros H. unfold SHA256.compress. rewrite length_map, length_combine.
  rewrite fold_round_length by exact H. rewrite H. reflexivity.
Qed.

Lemma blocks_length (fuel : nat) :
  forall ws st, List.length st = 8%nat ->
                List.length (SHA256.blocks fuel ws st) = 8%nat.
Proof.
  induction fuel as [|fuel IH]; intros ws st H; cbn [SHA256.blocks]; [exact H|].
  destruct ws; [exact H|]. apply IH, compress_length, H.
Qed.

Lemma digest_length (msg : list Z) : List.length (SHA256.digest msg) = 32%nat.
Proof.
  unfold SHA256.digest.
  assert (H := blocks_length (List.length (SHA256.words (List.length (SHA256.pad msg))
                                                        (SHA256.pad msg)))
                 (SHA256.words (List.length (SHA256.pad msg)) (SHA256.pad msg))
                 SHA256.initial_state eq_refl).
  revert H. generalize (SHA256.blocks
                          (List.length (SHA256.words (List.length (SHA256.pad msg))
                                                     (SHA256.pad msg)))
                          (SHA256.words (List.length (SHA256.pad msg)) (SHA256.pad msg))
                          SHA256.initial_state).
  intros l H. do 9 (destruct l as [|? l]; try discriminate H). reflexivity.
Qed.

Lemma hex_concat_length (l : list Z) :
  String.length (String.concat "" (map hex_byte l)) = (2 * List.length l)%nat.
Proof.
  induction l as [|x l IH]; [reflexivity|].
  cbn [map String.concat]. destruct (map hex_byte l) as [|y ys] eqn:E.
  - destruct l; [reflexivity | discriminate E].
  - cbn [List.length]. unfold hex_byte at 1. cbn [String.append String.length].
    rewrite IH. lia.
Qed.

Lemma compute_hash_length (b : Block) : String.length (compute_hash b) = 64%nat.
Proof.
  unfold compute_hash, sha256_hex, SHA256.hexdigest.
  now rewrite hex_concat_length, digest_length.
Qed.

(** X17. Every hash stored in the chain of a reachable ledger is 64
    characters long. So [add_block] refuses (returns [False], ledger as it
    was) every candidate whose [previous_hash] has another length: no block
    with the ["0"] of the genesis block can be added. *)
Theorem reachable_hash_length (self : Blockchain) :
  reachable self ->
  (forall (i : nat) (b : Block) (h : string),
     nth_error (chain self) i = Some b -> hash b = Some h -> String.length h = 64%nat)
  /\ forall (block : Block) (proof : json),
       (forall s, previous_hash block = JStr s -> String.length s <> 64%nat) ->
       add_block self block proof = Return (false, self).
Proof.
  intros Hr.
  assert (Hlen : forall (i : nat) (b : Block) (h : string),
             nth_error (chain self) i = Some b -> hash b = Some h ->
             String.length h = 64%nat).
  { destruct (reachable_chain_inv self Hr) as (rest & Hc & Hall).
    intros i b h Hi Hh. rewrite Hc in Hi. destruct i as [|i]; cbn [nth_error] in Hi.
    - injection Hi as <-. rewrite genesis_hash_eq in Hh. injection Hh as <-. reflexivity.
    - apply nth_error_In in Hi. rewrite Forall_forall in Hall.
      destruct (Hall b Hi) as (h' & Hh' & _ & Heq). rewrite Hh' in Hh. injection Hh as <-.
      rewrite Heq. apply compute_hash_length. }
  split; [exact Hlen|]. intros block proof Hne.
  destruct (well_linked_head self (reachable_well_linked self Hr)) as (head & t & Hl & Hh).
  destruct (last_block_inv self head Hl) as (l & Hc).
  assert (Ht : String.length t = 64%nat).
  { apply (Hlen (List.length l) head t); [|exact Hh].
    rewrite Hc, nth_error_app2 by lia. now rewrite Nat.sub_diag. }
  unfold add_block. rewrite Hl. cbn [bind]. unfold get_hash. rewrite Hh. cbn [bind].
  destruct (str_eq t (previous_hash block)) eqn:E; [|reflexivity].
  apply str_eq_true in E. elim (Hne t E Ht).
Qed.

Lemma reachable_hash_length_witness :
  add_block ledger_mined (Block_init (JInt 0) (JList []) (JInt 0) (JStr "0") (JInt 0))
            (JStr genesis_hash)
  = Return (false, ledger_mined).
Proof.
  apply (proj2 (reachable_hash_length ledger_mined reachable_ledger_mined)).
  cbn. intros s [= <-]. discriminate.
Defined.

(** ** A head whose index is no number *)

(** X18. [verify_and_add_block] looks at no index, so a peer can make a
    block whose index is no number the head of the chain. From then on
    [mine] on a non-empty pool raises [TypeError] at [last_block.index + 1],
    whatever the time and however long the search may run, and so does the
    handler [mine_unconfirmed_transactions]: the ledger and the pool stay as
    they were, the transactions stay pending and nothing is posted. *)
Theorem mine_raises_on_head_index (self : Blockchain) (head : Block) (peers : list Peer) :
  last_block self = Return head ->
  number_of (index head) = None ->
  pending self = true ->
  forall (py : Floats) (fuel : nat) (now : json),
    mine py fuel now self = Some (Raise TypeError)
    /\ mine_unconfirmed_transactions py fuel now self peers
       = Some (Raise TypeError, GBlockchain self).
Proof.
  intros Hl Hn Hp py fuel now.
  assert (H := mine_index_type_error py fuel now self head Hl Hn Hp).
  split; [exact H|]. unfold mine_unconfirmed_transactions. now rewrite H.
Qed.

Lemma mine_raises_on_head_index_witness :
  mine no_floats 1 (JFloat "1600000300.5") ledger_odd = Some (Raise TypeError)
  /\ mine_unconfirmed_transactions no_floats 1 (JFloat "1600000300.5") ledger_odd
        [mkPeer "http://127.0.0.1:8001/" (get_chain blockchain0 [])]
      = Some (Raise TypeError, GBlockchain ledger_odd).
Proof.
  apply (mine_raises_on_head_index ledger_odd odd_block
           [mkPeer "http://127.0.0.1:8001/" (get_chain blockchain0 [])]);
    reflexivity.
Defined.
